(** * Fresco retail: derived categories, column resolver and prediction inputs

    A shallow embedding of the helper functions of
    [pages/2_analytics_and_insights.py] and of the auto-calculated fields of
    [prediction_page.py].

    - Python floats are IEEE 754 binary64 numbers.  They are modelled by
      [spec_float] with the binary64 operations of the Standard Library's
      [SpecFloat] (precision 53, [emax] 1024): comparisons are the IEEE ones
      (every comparison with NaN is false) and arithmetic is correctly
      rounded to nearest, ties to even.
    - Exceptions are explicit: a computation returns [Ok v] or [Raise e].
    - A dataframe is a mutable object.  The functions that receive one take a
      reference into a store and thread the store, so that "adds the column in
      place and returns the same dataframe" is a statement about the store. *)

From Stdlib Require Import ZArith NArith Lia Bool Ascii.
From Stdlib Require Import Floats.SpecFloat.
From stdpp Require Import gmap strings list.

Local Open Scope Z_scope.

(** ** Binary64 floats *)

Module Float64.

Definition prec : Z := 53.
Definition emax : Z := 1024.

Definition float : Type := spec_float.

Definition fadd : float -> float -> float := SFadd prec emax.
Definition fmul : float -> float -> float := SFmul prec emax.
Definition fdiv : float -> float -> float := SFdiv prec emax.

(** The floats next below and next above a float. *)
Definition fpred : float -> float := SFpred prec emax.
Definition fsucc : float -> float := SFsucc prec emax.

Definition fltb : float -> float -> bool := SFltb.
Definition fleb : float -> float -> bool := SFleb.
Definition feqb : float -> float -> bool := SFeqb.

Definition is_nan (x : float) : bool :=
  match x with S754_nan => true | _ => false end.

Definition is_zero (x : float) : bool :=
  match x with S754_zero _ => true | _ => false end.

Definition nan : float := S754_nan.

(** The float nearest to an integer (ties to even); an integer too large
    for the format rounds to an infinity. *)
Definition of_int (z : Z) : float := binary_normalize prec emax z 0 false.

(** The float denoted by the decimal literal [n/d], for [n] and [d] exactly
    representable: one correctly rounded division, which is the value a
    correctly rounded literal parser gives. *)
Definition float_lit (n : Z) (d : positive) : float :=
  fdiv (of_int n) (of_int (Zpos d)).

(** The exponent of a finite float is at least the least exponent of the
    format.  Every result of an arithmetic operation is such a float. *)
Definition exponent_in_range (x : float) : Prop :=
  match x with
  | S754_finite _ _ e => emin prec emax <= e
  | _ => True
  end.

(** *** The order behind the comparisons

    [SFcompare] orders the floats that are not NaN first by class, then by
    exponent, then by mantissa.  The three keys below make this order
    available to [lia]. *)

Definition key_class (x : float) : Z :=
  match x with
  | S754_infinity true => -2
  | S754_finite true _ _ => -1
  | S754_finite false _ _ => 1
  | S754_infinity false => 2
  | _ => 0
  end.

Definition key_exp (x : float) : Z :=
  match x with
  | S754_finite true _ e => - e
  | S754_finite false _ e => e
  | _ => 0
  end.

Definition key_man (x : float) : Z :=
  match x with
  | S754_finite true m _ => Zneg m
  | S754_finite false m _ => Zpos m
  | _ => 0
  end.

Definition key_lt (x y : float) : Prop :=
  key_class x < key_class y \/
  (key_class x = key_class y /\
   (key_exp x < key_exp y \/ (key_exp x = key_exp y /\ key_man x < key_man y))).

Definition key_eq (x y : float) : Prop :=
  key_class x = key_class y /\ key_exp x = key_exp y /\ key_man x = key_man y.

End Float64.

Import Float64.

(** ** Python values and exceptions *)

Inductive exn : Type :=
  | TypeError
  | ValueError
  | OverflowError
  | ZeroDivisionError
  | KeyError (k : string).

Inductive res (A : Type) : Type :=
  | Ok (a : A)
  | Raise (e : exn).

Arguments Ok {A} a.
Arguments Raise {A} e.

Definition res_bind {A B} (r : res A) (k : A -> res B) : res B :=
  match r with
  | Ok a => k a
  | Raise e => Raise e
  end.

Notation "'let?' x ':=' c 'in' k" := (res_bind c (fun x => k))
  (at level 10, x name, c at level 100, k at level 200).

(** Mapping a function that may raise over the cells of a column
    ([Series.apply]): the first exception ends the traversal. *)
Fixpoint map_res {A B} (f : A -> res B) (l : list A) : res (list B) :=
  match l with
  | [] => Ok []
  | a :: rest =>
      let? b := f a in
      let? bs := map_res f rest in
      Ok (b :: bs)
  end.

(** The objects a dataframe cell can hold. *)
Inductive pyobj : Type :=
  | PyFloat (f : float)
  | PyInt (z : Z)
  | PyStr (s : string)
  | PyNone.

(** An [int] as a [float]: the nearest float, [OverflowError] when the
    integer is too large for one. *)
Definition int_to_float (z : Z) : res float :=
  match of_int z with
  | S754_infinity _ => Raise OverflowError
  | f => Ok f
  end.

(** [a / b] on floats: Python raises on a zero divisor. *)
Definition py_truediv (a b : float) : res float :=
  if is_zero b then Raise ZeroDivisionError else Ok (fdiv a b).

Section Builtins.

(** [float(s)] on a string is the interpreter's own literal parser; it is
    taken as a parameter.  [None] stands for the [ValueError] it raises on
    text that is not a number. *)
Variable str_to_float : string -> option float.

(** [float(x)]. *)
Definition py_float (x : pyobj) : res float :=
  match x with
  | PyFloat f => Ok f
  | PyInt z => int_to_float z
  | PyStr s =>
      match str_to_float s with
      | Some f => Ok f
      | None => Raise ValueError
      end
  | PyNone => Raise TypeError
  end.

(** [categorize_review], the function applied to every cell of the reviews
    column by [ensure_review_level]. *)
Definition categorize_review (x : pyobj) : res pyobj :=
  match py_float x with
  | Raise _ => Ok (PyStr "Unknown")
  | Ok x =>
      if fleb x (of_int 2) then Ok (PyStr "Low")
      else if feqb x (of_int 3) then Ok (PyStr "Medium")
      else Ok (PyStr "High")
  end.

(** [map_tax], the function applied to every cell of the tax column by
    [ensure_tax_level]. *)
Definition map_tax (x : pyobj) : res pyobj :=
  match py_float x with
  | Raise _ => Ok (PyStr "Unknown")
  | Ok x =>
      if fleb x (float_lit 9576 100) then Ok (PyStr "Low")
      else if fleb x (float_lit 34997 100) then Ok (PyStr "Medium")
      else Ok (PyStr "High")
  end.

End Builtins.

(** ** The store of dataframes *)

(** A dataframe: the number of rows of its index and its columns in order,
    each a label with its cells.  A label is a Python [str]: [load_data]
    calls [strip] on every label, and returns only when each of them is one.
    Two columns may have the same label, since [load_data] can give two
    headers one label; the statements that need distinct labels say so. *)
Record DataFrame : Type := mkDataFrame {
  nrows : nat;
  data : list (string * list pyobj)
}.

(** [df.columns]. *)
Definition columns (d : DataFrame) : list string := map fst (data d).

(** The cells of the first column labelled [c].  Where the label occurs
    once this is the column [df[c]].  Where it is repeated [df[c]] is a frame
    of the columns so labelled, on which [apply], [max] and [cut] do not work
    as on a column: what a derivation computes, and that it succeeds, is
    stated for frames with distinct labels only. *)
Fixpoint get_column (c : string) (cs : list (string * list pyobj))
  : option (list pyobj) :=
  match cs with
  | [] => None
  | (c', vs) :: rest => if String.eqb c c' then Some vs else get_column c rest
  end.

(** [df[c] = vs] on the columns: an existing label keeps its place and takes
    the new cells, a new label goes last. *)
Fixpoint set_column (c : string) (vs : list pyobj)
    (cs : list (string * list pyobj)) : list (string * list pyobj) :=
  match cs with
  | [] => [(c, vs)]
  | (c', vs') :: rest =>
      if String.eqb c c' then (c', vs) :: rest
      else (c', vs') :: set_column c vs rest
  end.

Definition ref : Type := positive.

Abbreviation store := (gmap positive DataFrame).

(** Computations that read and write the store and may raise.  An exception
    leaves the store as it was at the raise. *)
Definition M (A : Type) : Type := store -> res A * store.

Definition ret {A} (a : A) : M A := fun h => (Ok a, h).

Definition raise {A} (e : exn) : M A := fun h => (Raise e, h).

Definition bind {A B} (c : M A) (k : A -> M B) : M B :=
  fun h =>
    match c h with
    | (Ok a, h') => k a h'
    | (Raise e, h') => (Raise e, h')
    end.

(** A computation without effect on the store. *)
Definition lift {A} (r : res A) : M A := fun h => (r, h).

Notation "'let*' x ':=' c 'in' k" := (bind c (fun x => k))
  (at level 10, x name, c at level 100, k at level 200).

(** No Python program holds a reference outside the store; reading one is
    given the result of a missing key.  The theorems are about references
    that are in the store. *)
Definition df_read (df : ref) : M DataFrame :=
  fun h =>
    match h !! df with
    | Some d => (Ok d, h)
    | None => (Raise (KeyError "<dataframe>"), h)
    end.

(** [df.columns]. *)
Definition df_columns (df : ref) : M (list string) :=
  let* d := df_read df in ret (columns d).

(** [df[c]]: the cells of column [c], [KeyError] when there is none. *)
Definition df_getitem (df : ref) (c : string) : M (list pyobj) :=
  let* d := df_read df in
  match get_column c (data d) with
  | Some vs => ret vs
  | None => raise (KeyError c)
  end.

(** [df[c] = vs]: the dataframe object itself is updated. *)
Definition df_setitem (df : ref) (c : string) (vs : list pyobj) : M unit :=
  let* d := df_read df in
  fun h =>
    (Ok tt, <[df := mkDataFrame (nrows d) (set_column c vs (data d))]> h).

(** ** [pandas.cut] with explicit bin edges

    The behaviour of [pd.cut(x, bins=edges, labels=labels,
    include_lowest=...)] with its other arguments at their defaults
    ([right=True], [duplicates="raise"]), as pandas documents and implements
    it: the edges must not decrease, none of them may be NaN, and they must
    be distinct; a value [x] falls in the bin [(edges[i-1], edges[i]]], the
    lowest edge itself is put in the first bin when [include_lowest] is set,
    and a value outside every bin, or NaN, gets the missing value NaN. *)

Module Pandas.

(** The order numpy sorts and searches with: NaN comes after every number. *)
Definition np_lt (a b : float) : bool :=
  fltb a b || (is_nan b && negb (is_nan a)).

(** [edges.searchsorted(x, side="left")] on sorted edges: the number of
    edges below [x]. *)
Fixpoint searchsorted_left (edges : list float) (x : float) : nat :=
  match edges with
  | [] => 0%nat
  | b :: rest => if np_lt b x then S (searchsorted_left rest x) else 0%nat
  end.

(** [bins.is_monotonic_increasing], the test [cut] makes on its edges
    (pandas 2.1 and later): no edge is below the one before it and no edge is
    NaN, every comparison with NaN being false. *)
Fixpoint is_monotonic_increasing (edges : list float) : bool :=
  match edges with
  | [] => true
  | [a] => negb (is_nan a)
  | a :: (b :: _) as rest => fleb a b && is_monotonic_increasing rest
  end.

(** Two edges are the same value for [unique]: equal, or both NaN. *)
Definition same_value (a b : float) : bool :=
  feqb a b || (is_nan a && is_nan b).

Fixpoint has_duplicates (edges : list float) : bool :=
  match edges with
  | [] => false
  | a :: rest => existsb (same_value a) rest || has_duplicates rest
  end.

(** The category of one value: a label, or NaN for "missing". *)
Definition cut_one (edges : list float) (labels : list string)
    (include_lowest : bool) (x : float) : pyobj :=
  let ids := searchsorted_left edges x in
  let ids :=
    if include_lowest && feqb x (hd nan edges) then 1%nat else ids in
  if is_nan x || Nat.eqb ids (length edges) || Nat.eqb ids 0 then PyFloat nan
  else
    match labels !! (ids - 1)%nat with
    | Some l => PyStr l
    | None => PyFloat nan
    end.

(** The cells of a column of dtype float64 or int64 as floats: [max] and
    [cut] are modelled on such columns ([numeric_column] below), where this
    conversion does not raise.  On a column of another dtype [max] and [cut]
    depend on what the cells are together; there the model raises, and the
    statements on the income derivation do not reach. *)
Definition to_float64 (x : pyobj) : res float :=
  match x with
  | PyFloat f => Ok f
  | PyInt z => int_to_float z
  | _ => Raise TypeError
  end.

Definition cut (s : list pyobj) (edges : list float) (labels : list string)
    (include_lowest : bool) : res (list pyobj) :=
  let? x := map_res to_float64 s in
  if negb (is_monotonic_increasing edges) then Raise ValueError
  else if has_duplicates edges && negb (Nat.eqb (length edges) 2)
  then Raise ValueError
  else if negb (Nat.eqb (length labels) (length edges - 1))
  then Raise ValueError
  else Ok (map (cut_one edges labels include_lowest) x).

(** The largest value that is not NaN, and NaN when there is none. *)
Definition nanmax (xs : list float) : float :=
  fold_left
    (fun acc x =>
       if is_nan x then acc
       else if is_nan acc then x
       else if fltb acc x then x else acc)
    xs nan.

(** [Series.max()] of a numeric column (NaN cells are skipped). *)
Definition series_max (s : list pyobj) : res float :=
  let? x := map_res to_float64 s in Ok (nanmax x).

End Pandas.

Import Pandas.

(** ** The three derivations and the column resolver *)

Section Derivations.

Variable str_to_float : string -> option float.

Definition ensure_review_level (df : ref) (reviews_col : string) : M ref :=
  let* cols := df_columns df in
  if bool_decide ("Review_Level" ∈ cols) then ret df
  else
    let* s := df_getitem df reviews_col in
    let* level := lift (map_res (categorize_review str_to_float) s) in
    let* _ := df_setitem df "Review_Level" level in
    ret df.

Definition income_edges (top : float) : list float :=
  [of_int 0; of_int 38000; of_int 69000; of_int 99000; top].

Definition income_labels : list string :=
  ["Low"; "Medium"; "High"; "Very High"].

Definition ensure_income_category (df : ref) (income_col : string) : M ref :=
  let* cols := df_columns df in
  if bool_decide ("Income_Category" ∈ cols) then ret df
  else
    let* s := df_getitem df income_col in
    let* top := lift (series_max s) in
    let bins := income_edges top in
    let labels := income_labels in
    let* s := df_getitem df income_col in
    let* category := lift (cut s bins labels true) in
    let* _ := df_setitem df "Income_Category" category in
    ret df.

Definition ensure_tax_level (df : ref) (tax_col : string) : M ref :=
  let* cols := df_columns df in
  if bool_decide ("Tax_Level" ∈ cols) then ret df
  else
    let* s := df_getitem df tax_col in
    let* level := lift (map_res (map_tax str_to_float) s) in
    let* _ := df_setitem df "Tax_Level" level in
    ret df.

Fixpoint first_col (df : ref) (candidates : list string)
  : M (option string) :=
  match candidates with
  | [] => ret None
  | c :: rest =>
      let* cols := df_columns df in
      if bool_decide (c ∈ cols) then ret (Some c) else first_col df rest
  end.

End Derivations.

(** The category [ensure_income_category] gives one income value when the
    column's maximum is [top]. *)
Definition income_category (top v : float) : pyobj :=
  cut_one (income_edges top) income_labels true v.

(** The rank of a category label, Low < Medium < High < Very High. *)
Definition category_rank (c : pyobj) : option nat :=
  match c with
  | PyStr "Low" => Some 0%nat
  | PyStr "Medium" => Some 1%nat
  | PyStr "High" => Some 2%nat
  | PyStr "Very High" => Some 3%nat
  | _ => None
  end.

(** ** The auto-calculated fields of the prediction page *)

Module Prediction.

Record AutoCalc : Type := mkAutoCalc {
  Price : float;
  total_price : float;
  tax_ratio : float
}.

(** [Quantity] is the integer of its slider, [Unit_Price] and [Tax] the
    floats of theirs.  An integer operand of a float operation is converted
    to a float first. *)
Definition auto_calculations (Quantity : Z) (Unit_Price Tax : float)
  : res AutoCalc :=
  let? quantity := int_to_float Quantity in
  let Price := fmul quantity Unit_Price in
  let total_price := fadd Price Tax in
  let? tax_ratio := py_truediv Tax (fadd Price (of_int 1)) in
  Ok (mkAutoCalc Price total_price tax_ratio).

End Prediction.

Import Prediction.

(** ** Notions used by the statements *)

(** A parser that accepts no text, for the examples. *)
Definition reject_text : string -> option float := fun _ => None.

(** The dataframe of the end-to-end scenario, and a store that holds it. *)
Definition scenario_frame : DataFrame :=
  mkDataFrame 4
    [("Income", [PyInt 10000; PyInt 50000; PyInt 90000; PyInt 200000])].

Definition scenario_store : store := {[ 1%positive := scenario_frame ]}.

(** A dataframe that has the three derived columns already. *)
Definition derived_frame : DataFrame :=
  mkDataFrame 1
    [("Reviews", [PyInt 4]);
     ("Review_Level", [PyStr "High"]);
     ("Income_Category", [PyStr "Medium"]);
     ("Tax_Level", [PyStr "Low"])].

Definition derived_store : store := {[ 1%positive := derived_frame ]}.

(** Every column has one cell per row. *)
Definition well_formed (d : DataFrame) : Prop :=
  Forall (fun c => length (snd c) = nrows d) (data d).

(** The shape the three derivations share: nothing to do when the column
    [target] is there, else the cells that [compute] makes from the column
    [src] are stored under [target]. *)
Definition derive (target : string)
    (compute : list pyobj -> res (list pyobj)) (df : ref) (src : string)
  : M ref :=
  fun h =>
    match h !! df with
    | None => (Raise (KeyError "<dataframe>"), h)
    | Some d =>
        if bool_decide (target ∈ columns d) then (Ok df, h)
        else
          match get_column src (data d) with
          | None => (Raise (KeyError src), h)
          | Some s =>
              match compute s with
              | Raise e => (Raise e, h)
              | Ok vs =>
                  (Ok df,
                   <[df := mkDataFrame (nrows d)
                             (set_column target vs (data d))]> h)
              end
          end
    end.

(** The cells of Income_Category, from the cells of the income column. *)
Definition income_cells (s : list pyobj) : res (list pyobj) :=
  let? top := series_max s in
  cut s (income_edges top) income_labels true.


(** A column of dtype float64, or of dtype int64: every cell is a float, or
    every cell is an integer of 64 bits. *)
Definition float64_cell (x : pyobj) : Prop :=
  match x with
  | PyFloat _ => True
  | _ => False
  end.

Definition int64_cell (x : pyobj) : Prop :=
  match x with
  | PyInt z => - 2 ^ 63 <= z < 2 ^ 63
  | _ => False
  end.

Definition numeric_column (s : list pyobj) : Prop :=
  Forall float64_cell s \/ Forall int64_cell s.

Definition is_infinity (x : float) : bool :=
  match x with
  | S754_infinity _ => true
  | _ => false
  end.

(** ** Column labels as [load_data] normalises them

    A label is a Python [str]; the strings here are those whose characters
    have code points below 256. *)

Module PyString.

(** The characters [str.strip()] removes, among the code points below 256:
    tab to carriage return, the four separators 0x1c to 0x1f, space,
    next-line 0x85 and no-break space 0xa0. *)
Definition isspace (a : ascii) : bool :=
  let n := N_of_ascii a in
  ((9 <=? n) && (n <=? 13) || (28 <=? n) && (n <=? 32)
   || (n =? 133) || (n =? 160))%N.

Fixpoint lstrip (s : string) : string :=
  match s with
  | EmptyString => EmptyString
  | String a rest => if isspace a then lstrip rest else s
  end.

Fixpoint rstrip (s : string) : string :=
  match s with
  | EmptyString => EmptyString
  | String a rest =>
      match rstrip rest with
      | EmptyString => if isspace a then EmptyString else String a EmptyString
      | kept => String a kept
      end
  end.

(** [s.strip()]. *)
Definition strip (s : string) : string := rstrip (lstrip s).

(** [s.replace(old, new)] for one-character [old] and [new]. *)
Fixpoint replace (old new : ascii) (s : string) : string :=
  match s with
  | EmptyString => EmptyString
  | String a rest =>
      String (if Ascii.eqb a old then new else a) (replace old new rest)
  end.

(** [a in s] for a character [a]. *)
Fixpoint has_char (a : ascii) (s : string) : bool :=
  match s with
  | EmptyString => false
  | String b rest => Ascii.eqb b a || has_char a rest
  end.

(** The first, respectively last, character is one that [strip] removes. *)
Definition starts_with_space (s : string) : bool :=
  match s with
  | EmptyString => false
  | String a _ => isspace a
  end.

Fixpoint ends_with_space (s : string) : bool :=
  match s with
  | EmptyString => false
  | String a EmptyString => isspace a
  | String _ rest => ends_with_space rest
  end.

(** [s.endswith(suffix)]. *)
Definition endswith (s suffix : string) : bool :=
  (String.length suffix <=? String.length s)%nat
  && String.eqb
       (String.substring (String.length s - String.length suffix)
          (String.length suffix) s)
       suffix.

(** Lower case of an ASCII letter; other characters are kept. *)
Definition lower (a : ascii) : ascii :=
  let n := N_of_ascii a in
  if ((65 <=? n) && (n <=? 90))%N then ascii_of_N (n + 32) else a.

(** The pattern, a word of letters, matches at the start of [s] when case is
    ignored. *)
Fixpoint match_here_nocase (pat s : string) : bool :=
  match pat, s with
  | EmptyString, _ => true
  | String _ _, EmptyString => false
  | String p pat', String a s' =>
      Ascii.eqb (lower p) (lower a) && match_here_nocase pat' s'
  end.

(** [re.search(pat, s, re.IGNORECASE)] finds a match, for a pattern that is
    a word of ASCII letters: the word occurs in [s] in some mix of cases. *)
Fixpoint contains_nocase (pat s : string) : bool :=
  match_here_nocase pat s
  || match s with
     | EmptyString => false
     | String _ s' => contains_nocase pat s'
     end.

End PyString.

(** [c.strip().replace(" ", "_")], the label [load_data] gives a column. *)
Definition normalize_label (c : string) : string :=
  PyString.replace " " "_" (PyString.strip c).

(** ** Loading *)

(** [df.columns = labels]: the columns take the labels in order; pandas
    raises [ValueError] when there are not as many labels as columns. *)
Definition df_set_columns (df : ref) (labels : list string) : M unit :=
  let* d := df_read df in
  if negb (Nat.eqb (length labels) (length (data d))) then raise ValueError
  else
    fun h =>
      (Ok tt,
       <[df := mkDataFrame (nrows d) (zip labels (map snd (data d)))]> h).

Section Loading.

(** [pd.read_excel] puts the sheet it reads in the store and returns it, or
    raises; it is outside the repository. *)
Variable read_excel : string -> M ref.

(** [load_data] of the analytics page.  The cache that wraps it is not
    modelled. *)
Definition load_data (path : string) : M ref :=
  let* df := read_excel path in
  let* cols := df_columns df in
  let* _ := df_set_columns df (map normalize_label cols) in
  ret df.

End Loading.

Module ProjectInformation.

(** An uploaded file: its name, and the handle the readers take. *)
Record UploadedFile : Type := mkUploadedFile {
  name : string;
  handle : positive
}.

(** What a reader is given: a path, which may be [None], or an uploaded
    file. *)
Inductive source : Type :=
  | Path (file_path : option string)
  | Upload (file_obj : UploadedFile).

Section Loading.

Variable read_csv : source -> M ref.
Variable read_excel : source -> M ref.

(** [load_data] of the project information page. *)
Definition load_data (file_path : option string)
    (file_obj : option UploadedFile) : M ref :=
  let* df :=
    match file_obj with
    | Some f =>
        if PyString.endswith (name f) ".csv" then read_csv (Upload f)
        else read_excel (Upload f)
    | None => read_excel (Path file_path)
    end in
  let* cols := df_columns df in
  let* _ := df_set_columns df (map normalize_label cols) in
  ret df.

End Loading.

End ProjectInformation.

(** The frame with its labels normalised. *)
Definition normalize_columns (d : DataFrame) : DataFrame :=
  mkDataFrame (nrows d)
    (map (fun c => (normalize_label (fst c), snd c)) (data d)).

(** The first candidate that is among the labels [cols]. *)
Fixpoint first_present (cols candidates : list string) : option string :=
  match candidates with
  | [] => None
  | c :: rest =>
      if bool_decide (c ∈ cols) then Some c else first_present cols rest
  end.

(** What [derive] does to the frame it works on. *)
Definition derive_frame (target : string)
    (compute : list pyobj -> res (list pyobj)) (src : string)
    (d : DataFrame) : res DataFrame :=
  if bool_decide (target ∈ columns d) then Ok d
  else
    match get_column src (data d) with
    | None => Raise (KeyError src)
    | Some s =>
        let? vs := compute s in
        Ok (mkDataFrame (nrows d) (data d ++ [(target, vs)]))
    end.

(** ** The analytics page from the copy of the data to the sanity check *)

(** [df.copy()]: a new dataframe object with the rows and columns of [df]. *)
Definition df_copy (df : ref) : M ref :=
  let* d := df_read df in
  fun h => let new := fresh (dom h) in (Ok new, <[new := d]> h).

(** The column names the page detects. *)
Record Detected : Type := mkDetected {
  return_col : option string;
  payment_col : option string;
  store_col : option string;
  income_col : option string;
  product_cat_col : option string;
  product_subcat_col : option string;
  reviews_col : option string;
  tax_col : option string
}.

(** [if col: data = derivation(data, col)]: [None] and the empty string
    count as false. *)
Definition if_col (col : option string) (derivation : ref -> string -> M ref)
    (data : ref) : M ref :=
  match col with
  | Some c => if String.eqb c "" then ret data else derivation data c
  | None => ret data
  end.

(** The page after its set-up: stopped by [st.stop()], or going on with the
    copy of the data and the detected columns. *)
Inductive page : Type :=
  | Stopped
  | Running (data : ref) (cols : Detected).

Section Page.

Variable str_to_float : string -> option float.

(** The statements of the page from [data = df.copy()] to the check of the
    return column. *)
Definition detect_and_derive (df : ref) : M page :=
  let* data := df_copy df in
  let* return_col :=
    first_col data ["Return"; "return"; "is_return"; "Is_Return"] in
  let* payment_col :=
    first_col data
      ["Payment_mode"; "payment_mode"; "Payment Method"; "PaymentMethod"] in
  let* store_col :=
    first_col data ["Store_type"; "store_type"; "Store Type"; "Store"] in
  let* income_col :=
    first_col data ["Income"; "income"; "Annual_Income"; "Annual Income"] in
  let* product_cat_col :=
    first_col data
      ["product_category"; "Product_category"; "Product Category";
       "Category"] in
  let* product_subcat_col :=
    first_col data
      ["Product_Subcategory"; "product_subcategory"; "Product Subcategory";
       "Subcategory"] in
  let* reviews_col :=
    first_col data ["Reviews"; "reviews"; "Customer_Reviews"; "Rating"] in
  let* tax_col := first_col data ["Tax"; "tax"; "Tax_Amount"; "TaxAmount"] in
  let* data := if_col reviews_col (ensure_review_level str_to_float) data in
  let* data := if_col income_col ensure_income_category data in
  let* data := if_col tax_col (ensure_tax_level str_to_float) data in
  match return_col with
  | None => ret Stopped
  | Some _ =>
      ret (Running data
             (mkDetected return_col payment_col store_col income_col
                product_cat_col product_subcat_col reviews_col tax_col))
  end.

End Page.

(** The columns the page detects on a frame. *)
Definition detect (d : DataFrame) : Detected :=
  let cols := columns d in
  mkDetected
    (first_present cols ["Return"; "return"; "is_return"; "Is_Return"])
    (first_present cols
       ["Payment_mode"; "payment_mode"; "Payment Method"; "PaymentMethod"])
    (first_present cols ["Store_type"; "store_type"; "Store Type"; "Store"])
    (first_present cols
       ["Income"; "income"; "Annual_Income"; "Annual Income"])
    (first_present cols
       ["product_category"; "Product_category"; "Product Category";
        "Category"])
    (first_present cols
       ["Product_Subcategory"; "product_subcategory"; "Product Subcategory";
        "Subcategory"])
    (first_present cols ["Reviews"; "reviews"; "Customer_Reviews"; "Rating"])
    (first_present cols ["Tax"; "tax"; "Tax_Amount"; "TaxAmount"]).

(** What [if_col] with a derivation does to the frame. *)
Definition derive_if (col : option string) (target : string)
    (compute : list pyobj -> res (list pyobj)) (d : DataFrame)
  : res DataFrame :=
  match col with
  | Some c => if String.eqb c "" then Ok d else derive_frame target compute c d
  | None => Ok d
  end.

(** The frame [d1] is [d], or [d] with the column [target] added last. *)
Definition grown (target : string) (d d1 : DataFrame) : Prop :=
  nrows d1 = nrows d /\
  (d1 = d \/
   exists vs, (target ∉ columns d) /\ data d1 = data d ++ [(target, vs)]).

(** ** The multivariate questions *)

(** [data[mask]] on one column: the cells where the mask is true. *)
Fixpoint select {A} (mask : list bool) (l : list A) : list A :=
  match mask, l with
  | b :: mask', a :: l' =>
      if b then a :: select mask' l' else select mask' l'
  | _, _ => []
  end.

(** [df[mask]] for a boolean mask with one entry per row: a new dataframe
    with the rows where the mask is true. *)
Definition df_select (df : ref) (mask : list bool) : M ref :=
  let* d := df_read df in
  fun h =>
    let new := fresh (dom h) in
    (Ok new,
     <[new := mkDataFrame (length (List.filter id mask))
                (map (fun c => (fst c, select mask (snd c))) (data d))]> h).

(** The numbers of the rows whose cell in the column [s] passes the test
    [keep], in increasing order. *)
Definition kept_rows (keep : pyobj -> bool) (s : list pyobj) : list nat :=
  List.filter
    (fun i => match s !! i with Some x => keep x | None => false end)
    (seq 0 (length s)).

(** The frame [d'] holds the rows of [d] numbered [kept], in this order: it
    has one row for each of these numbers and the columns of [d], label by
    label, and in every column its cells are the cells that the column has
    in [d] at these rows. *)
Definition rows_of (d : DataFrame) (kept : list nat) (d' : DataFrame)
  : Prop :=
  nrows d' = length kept /\
  Forall2
    (fun c c' =>
       fst c' = fst c /\
       Forall2 (fun i v => snd c !! i = Some v) kept (snd c'))
    (data d) (data d').

Section Multivariate.

Variable str_to_float : string -> option float.

(** [str(x)] for a cell that is not a string is the interpreter's
    formatting; it is taken as a parameter. *)
Variable py_str : pyobj -> string.

(** [Series.astype(str)] on one cell. *)
Definition astype_str (x : pyobj) : string :=
  match x with
  | PyStr s => s
  | _ => py_str x
  end.

(** One entry of the mask of the first question:
    [contains("women", case=False) | contains("wom", case=False)]. *)
Definition women_mask (x : pyobj) : bool :=
  PyString.contains_nocase "women" (astype_str x)
  || PyString.contains_nocase "wom" (astype_str x).

(** [df_women], the rows of the data for women's products. *)
Definition women_rows (data : ref) (subcat : string) : M ref :=
  let* s := df_getitem data subcat in
  df_select data (map women_mask s).

(** [[c for c in required if c not in data.columns]]. *)
Fixpoint missing_cols (data : ref) (required : list string)
  : M (list string) :=
  match required with
  | [] => ret []
  | c :: rest =>
      let* cols := df_columns data in
      let* missing := missing_cols data rest in
      ret (if bool_decide (c ∈ cols) then missing else c :: missing)
  end.

(** The second question up to the grouping: [None] when the warning about
    missing columns is shown, else the copy with its review levels. *)
Definition reviews_by_category (data : ref) : M (option ref) :=
  let* missing :=
    missing_cols data ["product_category"; "Reviews"; "Return"] in
  match missing with
  | _ :: _ => ret None
  | [] =>
      let* tmp := df_copy data in
      let* tmp := ensure_review_level str_to_float tmp "Reviews" in
      ret (Some tmp)
  end.

(** The third question up to the grouping: [None] when the warning about
    missing columns is shown, else the copy with its income categories. *)
Definition income_by_category (data : ref) : M (option ref) :=
  let* missing :=
    missing_cols data ["product_category"; "Income"; "Return"] in
  match missing with
  | _ :: _ => ret None
  | [] =>
      let* tmp := df_copy data in
      let* cols := df_columns tmp in
      let* tmp :=
        if bool_decide ("Income_Category" ∈ cols) then ret tmp
        else ensure_income_category tmp "Income" in
      ret (Some tmp)
  end.

End Multivariate.

(** The float is a number, an infinity or a zero with the sign [s]. *)
Definition has_sign (s : bool) (x : float) : Prop :=
  match x with
  | S754_nan => False
  | S754_zero s' | S754_infinity s' | S754_finite s' _ _ => s' = s
  end.

(** ** Example data *)

(** A sheet as it is read, before its labels are normalised. *)
Definition raw_frame : DataFrame :=
  mkDataFrame 2
    [(" Payment mode ", [PyStr "Cash"; PyStr "Credit Card"]);
     ("Return", [PyInt 0; PyInt 1])].

(** Readers that put [raw_frame] in the store. *)
Definition sheet_reader (path : string) : M ref :=
  fun h => (Ok 1%positive, <[1%positive := raw_frame]> h).

Definition upload_reader (src : ProjectInformation.source) : M ref :=
  fun h => (Ok 1%positive, <[1%positive := raw_frame]> h).

(** The sheet as [load_data] leaves it, and a store that holds it. *)
Definition loaded_frame : DataFrame := normalize_columns raw_frame.

Definition loaded_store : store := {[ 1%positive := loaded_frame ]}.

(** A loaded frame without derived columns, and a store that holds it. *)
Definition orders_frame : DataFrame :=
  mkDataFrame 3
    [("Return", [PyInt 0; PyInt 1; PyInt 0]);
     ("Reviews", [PyInt 2; PyInt 3; PyInt 5]);
     ("Income", [PyInt 50000; PyInt 120000; PyInt 98000]);
     ("Tax", [PyFloat (of_int 50); PyFloat (of_int 100); PyFloat (of_int 400)]);
     ("Product_Subcategory", [PyStr "Women"; PyStr "Mens"; PyStr "WOMEN"]);
     ("product_category", [PyStr "Bags"; PyStr "Bags"; PyStr "Footwear"])].

Definition orders_store : store := {[ 1%positive := orders_frame ]}.

(** The same frame with incomes that stay below 99000. *)
Definition modest_frame : DataFrame :=
  mkDataFrame 2
    [("Return", [PyInt 0; PyInt 1]);
     ("Income", [PyInt 50000; PyInt 98000])].

Definition modest_store : store := {[ 1%positive := modest_frame ]}.

(** A formatting of cells for the examples. *)
Definition repr_text (x : pyobj) : string := "".

(** ** Facts on the float order *)

Module Float64Facts.

(** One case analysis serves the three comparisons: the class of both
    arguments, their signs, then the exponents and the mantissas. *)
Ltac compare_cases x y :=
  let sx := fresh "sx" in let mx := fresh "mx" in let ex := fresh "ex" in
  let sy := fresh "sy" in let my := fresh "my" in let ey := fresh "ey" in
  destruct x as [sx|sx| |sx mx ex], y as [sy|sy| |sy my ey]; simpl;
  try destruct sx; try destruct sy; simpl;
  try (split; [discriminate | intros (? & ? & ?); (discriminate || lia)]);
  try (split; [intros _; repeat split; lia | reflexivity]);
  change (Pos.compare_cont Eq mx my) with (Pos.compare mx my);
  destruct (Z.compare_spec ex ey); destruct (Pos.compare_spec mx my); simpl;
  (split; [ (discriminate || (intros _; repeat split; lia))
          | intros (? & ? & ?); (reflexivity || lia) ]).

Lemma fltb_key (x y : float) :
  fltb x y = true <-> is_nan x = false /\ is_nan y = false /\ key_lt x y.
Proof. unfold fltb, SFltb, key_lt. compare_cases x y. Qed.

Lemma feqb_key (x y : float) :
  feqb x y = true <-> is_nan x = false /\ is_nan y = false /\ key_eq x y.
Proof. unfold feqb, SFeqb, key_eq. compare_cases x y. Qed.

Lemma fleb_key (x y : float) :
  fleb x y = true <->
  is_nan x = false /\ is_nan y = false /\ (key_lt x y \/ key_eq x y).
Proof. unfold fleb, SFleb, key_lt, key_eq. compare_cases x y. Qed.

(** Closed float constants are replaced by their values. *)
Ltac eval_consts :=
  repeat match goal with
  | |- context [of_int ?z] =>
      let v := eval vm_compute in (of_int z) in change (of_int z) with v in *
  | |- context [float_lit ?n ?d] =>
      let v := eval vm_compute in (float_lit n d) in
      change (float_lit n d) with v in *
  | H : context [of_int ?z] |- _ =>
      let v := eval vm_compute in (of_int z) in change (of_int z) with v in *
  | H : context [float_lit ?n ?d] |- _ =>
      let v := eval vm_compute in (float_lit n d) in
      change (float_lit n d) with v in *
  end.

(** Comparisons in the hypotheses and in the goal become facts on keys,
    which [lia] settles. *)
Ltac float_order :=
  eval_consts;
  repeat match goal with
  | H : fltb _ _ = true |- _ => apply fltb_key in H; destruct H as (? & ? & H)
  | H : fleb _ _ = true |- _ => apply fleb_key in H; destruct H as (? & ? & H)
  | H : feqb _ _ = true |- _ => apply feqb_key in H; destruct H as (? & ? & H)
  | H : fltb _ _ = false |- _ =>
      apply not_true_iff_false in H; rewrite fltb_key in H
  | H : fleb _ _ = false |- _ =>
      apply not_true_iff_false in H; rewrite fleb_key in H
  | H : feqb _ _ = false |- _ =>
      apply not_true_iff_false in H; rewrite feqb_key in H
  | |- fltb _ _ = true => apply fltb_key
  | |- fleb _ _ = true => apply fleb_key
  | |- feqb _ _ = true => apply feqb_key
  | |- fltb _ _ = false =>
      apply not_true_iff_false; rewrite fltb_key; intros (? & ? & ?)
  | |- fleb _ _ = false =>
      apply not_true_iff_false; rewrite fleb_key; intros (? & ? & ?)
  | |- feqb _ _ = false =>
      apply not_true_iff_false; rewrite feqb_key; intros (? & ? & ?)
  end;
  cbn [is_nan] in *;
  repeat match goal with
  | H : ~ (_ /\ _ /\ ?C) |- _ =>
      let H' := fresh in
      assert (H' : ~ C)
        by (intro; apply H; split; [|split]; first [assumption | reflexivity]);
      clear H
  end;
  unfold key_lt, key_eq in *; cbn [key_class key_exp key_man] in *;
  first [ lia | congruence
        | repeat split; first [assumption | reflexivity | lia] ].

(** The float literals of the source, with the mantissa and exponent that
    [float.hex] shows for them: 95.76 is 0x1.7f0a3d70a3d71p+6, 349.97 is
    0x1.5df851eb851ecp+8, 776.17 is 0x1.8415c28f5c28fp+9 and 241.24 is
    0x1.e27ae147ae148p+7. *)
Example literal_values :
  float_lit 9576 100 = S754_finite false 0x17f0a3d70a3d71 (6 - 52) /\
  float_lit 34997 100 = S754_finite false 0x15df851eb851ec (8 - 52) /\
  float_lit 77617 100 = S754_finite false 0x18415c28f5c28f (9 - 52) /\
  float_lit 24124 100 = S754_finite false 0x1e27ae147ae148 (7 - 52).
Proof. repeat split; vm_compute; reflexivity. Qed.

Lemma fltb_not_fleb (x y : float) : fltb x y = true -> fleb y x = false.
Proof. intros H. float_order. Qed.

Lemma fleb_trans (x y z : float) :
  fleb x y = true -> fleb y z = true -> fleb x z = true.
Proof. intros H1 H2. float_order. Qed.

Lemma fltb_fleb_trans (x y z : float) :
  fltb x y = true -> fleb y z = true -> fltb x z = true.
Proof. intros H1 H2. float_order. Qed.

Lemma nan_fleb (x y : float) : is_nan x = true -> fleb x y = false.
Proof. intros H. destruct x; try discriminate. reflexivity. Qed.

Lemma nan_feqb (x y : float) : is_nan x = true -> feqb x y = false.
Proof. intros H. destruct x; try discriminate. reflexivity. Qed.

(** *** Rounding never produces a zero from a non-zero sum

    With an exponent in the range of the format, the right shift that
    rounding makes is shorter than the mantissa and leaves its leading
    digit. *)

Lemma digits2_pos_size (m : positive) : digits2_pos m = Pos.size m.
Proof. induction m; simpl; congruence. Qed.

Lemma digits_lower (m : positive) : 2 ^ (Zpos (digits2_pos m) - 1) <= Zpos m.
Proof.
  rewrite digits2_pos_size.
  pose proof (Pos.size_le m) as H.
  apply Pos2Z.pos_le_pos in H. rewrite Pos2Z.inj_pow in H.
  replace (Zpos (Pos.size m)) with (Z.succ (Zpos (Pos.size m) - 1)) in H by lia.
  rewrite Z.pow_succ_r in H by lia.
  change (Zpos m~0) with (2 * Zpos m) in H. lia.
Qed.

Lemma shr_1_lower (mrs : shr_record) (j : Z) :
  0 <= j -> 2 ^ (j + 1) <= shr_m mrs -> 2 ^ j <= shr_m (shr_1 mrs).
Proof.
  intros Hj. rewrite Z.pow_add_r, Z.pow_1_r by lia.
  destruct mrs as [m r s]. cbn [shr_m].
  assert (0 < 2 ^ j) by (apply Z.pow_pos_nonneg; lia).
  destruct m as [|[p|p|]|p]; cbn [shr_1 shr_m]; lia.
Qed.

Lemma iter_shr_1_lower (p : positive) :
  forall (mrs : shr_record) (j : Z),
    0 <= j -> 2 ^ (j + Zpos p) <= shr_m mrs ->
    2 ^ j <= shr_m (SpecFloat.iter_pos shr_1 p mrs).
Proof.
  induction p as [p IH|p IH|]; intros mrs j Hj H; cbn [SpecFloat.iter_pos].
  - apply IH; [lia|]. apply IH; [lia|]. apply shr_1_lower; [lia|].
    replace (j + Z.pos p + Z.pos p + 1) with (j + Z.pos p~1) by lia. exact H.
  - apply IH; [lia|]. apply IH; [lia|].
    replace (j + Z.pos p + Z.pos p) with (j + Z.pos p~0) by lia. exact H.
  - now apply shr_1_lower.
Qed.

Lemma shr_record_of_loc_m (m : Z) (l : location) :
  shr_m (shr_record_of_loc m l) = m.
Proof. destruct l as [|[]]; reflexivity. Qed.

Lemma shr_fexp_positive (m : positive) (e : Z) (l : location) :
  emin prec emax <= e ->
  0 < shr_m (fst (shr_fexp prec emax (Zpos m) e l)) /\
  emin prec emax <= snd (shr_fexp prec emax (Zpos m) e l).
Proof.
  intros He. unfold shr_fexp, shr, fexp. cbn [Zdigits2].
  pose proof (digits_lower m) as Hm.
  set (d := Zpos (digits2_pos m)) in *.
  destruct (Z.max (d + e - prec) (emin prec emax) - e) as [|n|n] eqn:En;
    cbn [fst snd]; rewrite ?shr_record_of_loc_m; try lia.
  split; [|lia].
  assert (1 <= shr_m (SpecFloat.iter_pos shr_1 n
                        (shr_record_of_loc (Zpos m) l))); [|lia].
  change 1 with (2 ^ 0). apply iter_shr_1_lower; [lia|].
  rewrite shr_record_of_loc_m. etransitivity; [|exact Hm].
  apply Z.pow_le_mono_r; [lia|]. unfold prec in *. lia.
Qed.

Lemma round_nearest_even_lower (m : Z) (l : location) :
  m <= round_nearest_even m l.
Proof.
  destruct l as [|[]]; cbn [round_nearest_even]; try lia.
  destruct (Z.even m); lia.
Qed.

Lemma binary_round_aux_nonzero (s : bool) (m : positive) (e : Z)
    (l : location) :
  emin prec emax <= e ->
  is_zero (binary_round_aux prec emax s (Zpos m) e l) = false.
Proof.
  intros He. unfold binary_round_aux.
  destruct (shr_fexp_positive m e l He) as [H1 H2].
  destruct (shr_fexp prec emax (Zpos m) e l) as [mrs' e']. cbn [fst snd] in *.
  pose proof (round_nearest_even_lower
                (shr_m mrs') (loc_of_shr_record mrs')) as Hr.
  destruct (round_nearest_even (shr_m mrs') (loc_of_shr_record mrs'))
    as [|m2|m2]; try lia.
  destruct (shr_fexp_positive m2 e' loc_Exact H2) as [H3 _].
  destruct (shr_fexp prec emax (Zpos m2) e' loc_Exact) as [mrs'' e''].
  cbn [fst] in H3.
  destruct (shr_m mrs''); try lia.
  destruct (Z.leb _ _); reflexivity.
Qed.

Lemma binary_round_nonzero (s : bool) (m : positive) (e : Z) :
  emin prec emax <= e -> is_zero (binary_round prec emax s m e) = false.
Proof.
  intros He. unfold binary_round, shl_align.
  destruct (fexp prec emax (Zpos (digits2_pos m) + e) - e) eqn:E;
    apply binary_round_aux_nonzero; try exact He.
  unfold fexp. lia.
Qed.

Lemma shr_fexp_exponent (m e : Z) (l : location) :
  emin prec emax <= snd (shr_fexp prec emax m e l).
Proof.
  unfold shr_fexp, shr, fexp.
  destruct (Z.max (Zdigits2 m + e - prec) (emin prec emax) - e) eqn:En;
    cbn [snd]; lia.
Qed.

Lemma binary_round_aux_exponent (s : bool) (m e : Z) (l : location) :
  exponent_in_range (binary_round_aux prec emax s m e l).
Proof.
  unfold binary_round_aux.
  destruct (shr_fexp prec emax m e l) as [mrs' e'].
  pose proof (shr_fexp_exponent
                (round_nearest_even (shr_m mrs') (loc_of_shr_record mrs'))
                e' loc_Exact) as He.
  destruct (shr_fexp prec emax _ e' loc_Exact) as [mrs'' e''].
  cbn [snd] in He. destruct (shr_m mrs''); cbn; trivial.
  destruct (Z.leb _ _); cbn; trivial.
Qed.

Lemma fmul_exponent (x y : float) : exponent_in_range (fmul x y).
Proof.
  destruct x, y; cbn; trivial. apply binary_round_aux_exponent.
Qed.

Lemma fadd_one_nonzero (p : float) :
  exponent_in_range p -> fleb (of_int 0) p = true ->
  is_zero (fadd p (of_int 1)) = false.
Proof.
  intros He Hp.
  change (of_int 1) with (S754_finite false 4503599627370496 (-52)).
  change (of_int 0) with (S754_zero false) in Hp.
  destruct p as [s|s| |s m e]; try discriminate Hp; try reflexivity.
  destruct s; [discriminate Hp|]. cbn [exponent_in_range] in He.
  unfold fadd, SFadd, cond_Zopp.
  rewrite <- Pos2Z.inj_add. cbn [binary_normalize].
  apply binary_round_nonzero. unfold emin, prec, emax in *. lia.
Qed.

End Float64Facts.

Import Float64Facts.

(** ** The sign of a rounded result *)

Module Float64Signs.

Lemma shr_1_nonneg (mrs : shr_record) :
  0 <= shr_m mrs -> 0 <= shr_m (shr_1 mrs).
Proof.
  destruct mrs as [m r s]. cbn [shr_m].
  destruct m as [|[p|p|]|p]; cbn [shr_1 shr_m]; lia.
Qed.

Lemma iter_shr_1_nonneg (p : positive) :
  forall mrs, 0 <= shr_m mrs -> 0 <= shr_m (SpecFloat.iter_pos shr_1 p mrs).
Proof.
  induction p as [p IH|p IH|]; intros mrs H; cbn [SpecFloat.iter_pos];
    auto using shr_1_nonneg.
Qed.

Lemma shr_fexp_nonneg (m e : Z) (l : location) :
  0 <= m -> 0 <= shr_m (fst (shr_fexp prec emax m e l)).
Proof.
  intros Hm. unfold shr_fexp, shr.
  destruct (fexp prec emax (Zdigits2 m + e) - e); cbn [fst];
    rewrite ?shr_record_of_loc_m; try exact Hm.
  apply iter_shr_1_nonneg. now rewrite shr_record_of_loc_m.
Qed.

(** Rounding a mantissa that is not negative gives a float of the sign
    asked for, never NaN. *)
Lemma binary_round_aux_sign (s : bool) (m e : Z) (l : location) :
  0 <= m -> has_sign s (binary_round_aux prec emax s m e l).
Proof.
  intros Hm. unfold binary_round_aux.
  pose proof (shr_fexp_nonneg m e l Hm) as H1.
  destruct (shr_fexp prec emax m e l) as [mrs' e']. cbn [fst] in H1.
  pose proof (round_nearest_even_lower
                (shr_m mrs') (loc_of_shr_record mrs')) as Hr.
  pose proof (shr_fexp_nonneg
                (round_nearest_even (shr_m mrs') (loc_of_shr_record mrs'))
                e' loc_Exact) as H2.
  destruct (shr_fexp prec emax _ e' loc_Exact) as [mrs'' e''].
  cbn [fst] in H2. specialize (H2 ltac:(lia)).
  destruct (shr_m mrs''); [reflexivity | | lia].
  destruct (Z.leb _ _); reflexivity.
Qed.

Lemma has_sign_nonneg (x : float) :
  has_sign false x -> fleb (of_int 0) x = true.
Proof. destruct x as [s|s| |s m e]; cbn; intros H; now subst. Qed.

Lemma nonneg_cases (x : float) :
  fleb (of_int 0) x = true ->
  (exists s, x = S754_zero s) \/ x = S754_infinity false \/
  exists m e, x = S754_finite false m e.
Proof.
  destruct x as [s|[]| |[] m e]; cbn; intros H; try discriminate; eauto.
Qed.

Lemma fmul_nonneg (m : positive) (e : Z) (y : float) :
  fleb (of_int 0) y = true ->
  fleb (of_int 0) (fmul (S754_finite false m e) y) = true.
Proof.
  intros Hy. destruct (nonneg_cases y Hy) as [[s ->]|[->|(my & ey & ->)]];
    try reflexivity.
  apply has_sign_nonneg. cbn [fmul SFmul xorb].
  apply binary_round_aux_sign. lia.
Qed.

Lemma fadd_nonneg (x y : float) :
  fleb (of_int 0) x = true -> fleb (of_int 0) y = true ->
  fleb (of_int 0) (fadd x y) = true.
Proof.
  intros Hx Hy.
  destruct (nonneg_cases x Hx) as [[sx ->]|[->|(mx & ex & ->)]];
    destruct (nonneg_cases y Hy) as [[sy ->]|[->|(my & ey & ->)]];
    try reflexivity; try (destruct sx, sy; reflexivity).
  apply has_sign_nonneg. unfold fadd, SFadd, cond_Zopp.
  rewrite <- Pos2Z.inj_add. cbn [binary_normalize]. unfold binary_round.
  destruct (shl_align _ _ _) as [mz ez]. apply binary_round_aux_sign. lia.
Qed.

Lemma fdiv_nonneg (x y : float) :
  fleb (of_int 0) x = true -> x <> S754_infinity false ->
  fleb (of_int 0) y = true -> is_zero y = false ->
  fleb (of_int 0) (fdiv x y) = true.
Proof.
  intros Hx Hfin Hy Hnz.
  destruct (nonneg_cases x Hx) as [[sx ->]|[->|(mx & ex & ->)]];
    [| contradiction |];
    destruct (nonneg_cases y Hy) as [[sy ->]|[->|(my & ey & ->)]];
    try discriminate Hnz; try reflexivity.
  apply has_sign_nonneg. unfold fdiv, SFdiv, SFdiv_core_binary. cbn [xorb].
  set (m' := match _ - _ - _ with Z0 => _ | Zpos _ => _ | Zneg _ => _ end).
  assert (Hm' : 0 <= m').
  { subst m'. destruct (_ - _ - _); try lia. apply Z.shiftl_nonneg. lia. }
  pose proof (Z.div_pos m' (Zpos my) Hm' ltac:(lia)) as Hq.
  unfold Z.div in Hq. destruct (Z.div_eucl m' (Zpos my)) as [q r].
  apply binary_round_aux_sign. exact Hq.
Qed.

(** A positive integer is a positive float, when it is not too large. *)
Lemma int_to_float_positive (z : Z) (q : float) :
  0 < z -> int_to_float z = Ok q -> exists m e, q = S754_finite false m e.
Proof.
  intros Hz. unfold int_to_float, of_int.
  destruct z as [|p|p]; try lia. cbn [binary_normalize].
  assert (Hmin : emin prec emax <= 0) by (unfold emin, prec, emax; lia).
  pose proof (binary_round_nonzero false p 0 Hmin) as Hnz.
  assert (Hs : has_sign false (binary_round prec emax false p 0)).
  { unfold binary_round. destruct (shl_align _ _ _) as [mz ez].
    apply binary_round_aux_sign. lia. }
  destruct (binary_round prec emax false p 0) as [s|s| |s m e];
    try discriminate; try contradiction.
  cbn in Hs. subst s. intros [= <-]. eauto.
Qed.

End Float64Signs.

Import Float64Signs.

(** ** Integers of 64 bits are in the range of the format *)

Module Float64Range.

Import Float64Signs.

Lemma digits_upper (m k : Z) :
  0 <= k -> 0 <= m < 2 ^ k -> Zdigits2 m <= k.
Proof.
  intros Hk [H0 Hm]. destruct m as [|p|p]; cbn [Zdigits2]; try lia.
  pose proof (digits_lower p) as Hl.
  destruct (Z_lt_le_dec k (Zpos (digits2_pos p))) as [Hlt|]; [|assumption].
  exfalso. assert (2 ^ k <= 2 ^ (Zpos (digits2_pos p) - 1))
    by (apply Z.pow_le_mono_r; lia). lia.
Qed.

Lemma shr_fexp_exponent_upper (m e : Z) (l : location) :
  snd (shr_fexp prec emax m e l) <=
    Z.max e (Z.max (Zdigits2 m + e - prec) (emin prec emax)).
Proof.
  unfold shr_fexp, shr, fexp.
  destruct (Z.max (Zdigits2 m + e - prec) (emin prec emax) - e) eqn:En;
    cbn [snd]; lia.
Qed.

Lemma shr_1_upper (mrs : shr_record) :
  0 <= shr_m mrs -> shr_m (shr_1 mrs) <= shr_m mrs.
Proof.
  destruct mrs as [m r s]. cbn [shr_m].
  destruct m as [|[p|p|]|p]; cbn [shr_1 shr_m]; lia.
Qed.

Lemma iter_shr_1_upper (p : positive) :
  forall mrs, 0 <= shr_m mrs ->
    shr_m (SpecFloat.iter_pos shr_1 p mrs) <= shr_m mrs.
Proof.
  induction p as [p IH|p IH|]; intros mrs H; cbn [SpecFloat.iter_pos].
  - pose proof (shr_1_upper mrs H) as U0.
    pose proof (shr_1_nonneg mrs H) as N0.
    pose proof (IH _ N0) as U1.
    pose proof (iter_shr_1_nonneg p _ N0) as N1.
    pose proof (IH _ N1) as U2. lia.
  - pose proof (IH _ H) as U1.
    pose proof (iter_shr_1_nonneg p _ H) as N1.
    pose proof (IH _ N1) as U2. lia.
  - now apply shr_1_upper.
Qed.

Lemma shr_fexp_upper (m e : Z) (l : location) :
  0 <= m -> shr_m (fst (shr_fexp prec emax m e l)) <= m.
Proof.
  intros Hm. unfold shr_fexp, shr.
  destruct (fexp prec emax (Zdigits2 m + e) - e); cbn [fst];
    rewrite ?shr_record_of_loc_m; try lia.
  etransitivity; [apply iter_shr_1_upper|]; rewrite shr_record_of_loc_m; lia.
Qed.

Lemma round_nearest_even_upper (m : Z) (l : location) :
  round_nearest_even m l <= m + 1.
Proof.
  destruct l as [|[]]; cbn [round_nearest_even]; try lia.
  destruct (Z.even m); lia.
Qed.

(** Rounding a mantissa below 2^116 at an exponent that is not positive
    stays far from the largest exponent: the result is not an infinity. *)
Lemma binary_round_aux_finite (s : bool) (m e : Z) (l : location) :
  0 <= m < 2 ^ 116 -> e <= 0 ->
  is_infinity (binary_round_aux prec emax s m e l) = false.
Proof.
  intros Hm He. unfold binary_round_aux.
  pose proof (shr_fexp_exponent_upper m e l) as E1.
  pose proof (shr_fexp_upper m e l ltac:(lia)) as M1.
  pose proof (shr_fexp_nonneg m e l ltac:(lia)) as N1.
  pose proof (digits_upper m 116 ltac:(lia) Hm) as D1.
  destruct (shr_fexp prec emax m e l) as [mrs' e']. cbn [fst snd] in *.
  set (m1 := round_nearest_even (shr_m mrs') (loc_of_shr_record mrs')).
  pose proof (round_nearest_even_upper
                (shr_m mrs') (loc_of_shr_record mrs')) as R1.
  pose proof (round_nearest_even_lower
                (shr_m mrs') (loc_of_shr_record mrs')) as R0.
  fold m1 in R1, R0.
  assert (D2 : Zdigits2 m1 <= 117).
  { apply digits_upper; [lia|].
    change (2 ^ 117) with (2 * 2 ^ 116). lia. }
  pose proof (shr_fexp_exponent_upper m1 e' loc_Exact) as E2.
  destruct (shr_fexp prec emax m1 e' loc_Exact) as [mrs'' e''].
  cbn [snd] in E2. destruct (shr_m mrs''); try reflexivity.
  replace (e'' <=? emax - prec) with true; [reflexivity|].
  symmetry. apply Z.leb_le. unfold emin, prec, emax in *. lia.
Qed.

Lemma shl_align_bound (p : positive) :
  Zpos p <= 2 ^ 63 ->
  0 <= Zpos (fst (shl_align p 0 (fexp prec emax (Zpos (digits2_pos p) + 0))))
    < 2 ^ 116 /\
  snd (shl_align p 0 (fexp prec emax (Zpos (digits2_pos p) + 0))) <= 0.
Proof.
  intros Hp. unfold shl_align, fexp.
  destruct (Z.max (Zpos (digits2_pos p) + 0 - prec) (emin prec emax) - 0)
    as [|d|d] eqn:E; cbn [fst snd]; try lia.
  change (Pos.iter xO p d) with (shift_pos d p).
  rewrite shift_pos_correct. change (Z.pow_pos 2 d) with (2 ^ Zpos d).
  assert (Hd : Zpos d <= 52) by (unfold prec in E; lia).
  assert (Hpow : 2 ^ Zpos d <= 2 ^ 52) by (apply Z.pow_le_mono_r; lia).
  assert (0 < 2 ^ Zpos d) by (apply Z.pow_pos_nonneg; lia).
  split; [|lia]. split; [lia|].
  change (2 ^ 116) with (2 ^ 52 * 2 ^ 64). nia.
Qed.

(** An integer of 64 bits converts to a float without [OverflowError]. *)
Lemma int64_to_float (z : Z) :
  - 2 ^ 63 <= z < 2 ^ 63 -> int_to_float z = Ok (of_int z).
Proof.
  intros Hz. unfold int_to_float.
  assert (H : is_infinity (of_int z) = false); [|now destruct (of_int z)].
  unfold of_int. destruct z as [|p|p]; cbn [binary_normalize];
    [reflexivity| |]; unfold binary_round;
    (destruct (shl_align_bound p ltac:(lia)) as [Hm He];
     destruct (shl_align _ _ _) as [mz ez]; cbn [fst snd] in *;
     now apply binary_round_aux_finite).
Qed.

(** The cells of a numeric column all have a float value. *)
Lemma numeric_column_values (s : list pyobj) :
  numeric_column s -> exists x, map_res to_float64 s = Ok x.
Proof.
  intros Hs.
  assert (H : Forall (fun c => exists f, to_float64 c = Ok f) s).
  { destruct Hs as [Hs|Hs]; (eapply Forall_impl; [exact Hs|]);
      intros [f|z|t|] Hc; try contradiction Hc; cbn [to_float64]; eauto.
    rewrite (int64_to_float z Hc). eauto. }
  clear Hs. induction H as [|c s [f Hf] _ IH]; cbn [map_res]; [eauto|].
  destruct IH as [x Hx]. rewrite Hf, Hx. cbn [res_bind]. eauto.
Qed.

End Float64Range.

Import Float64Range.

(** ** Review level and tax level of one cell *)

Section CellLevels.

Variable parse : string -> option float.

(** C4. [categorize_review] never raises and always returns one of its four
    labels; it returns "Low" for a numeric input at most 2, "Medium" for a
    numeric input equal to 3, "High" for a numeric input above 3 and
    "Unknown" for an input that [float] rejects. *)
Theorem categorize_review_mapping (x : pyobj) :
  (exists l, categorize_review parse x = Ok (PyStr l) /\
             l ∈ ["Low"; "Medium"; "High"; "Unknown"]) /\
  (forall f, py_float parse x = Ok f -> fleb f (of_int 2) = true ->
     categorize_review parse x = Ok (PyStr "Low")) /\
  (forall f, py_float parse x = Ok f -> feqb f (of_int 3) = true ->
     categorize_review parse x = Ok (PyStr "Medium")) /\
  (forall f, py_float parse x = Ok f -> fltb (of_int 3) f = true ->
     categorize_review parse x = Ok (PyStr "High")) /\
  (forall e, py_float parse x = Raise e ->
     categorize_review parse x = Ok (PyStr "Unknown")).
Proof.
  unfold categorize_review. repeat split.
  - destruct (py_float parse x) as [f|e];
      [|eexists; split; [reflexivity | set_solver]].
    destruct (fleb f _); [eexists; split; [reflexivity | set_solver]|].
    destruct (feqb f _); eexists; (split; [reflexivity | set_solver]).
  - intros f -> H. now rewrite H.
  - intros f -> H. rewrite H.
    replace (fleb f (of_int 2)) with false; [reflexivity|].
    symmetry. float_order.
  - intros f -> H.
    replace (fleb f (of_int 2)) with false by (symmetry; float_order).
    replace (feqb f (of_int 3)) with false by (symmetry; float_order).
    reflexivity.
  - intros e ->. reflexivity.
Qed.

(** C5. [map_tax] never raises and always returns one of its four labels; it
    returns
    "Low" for a numeric input at most 95.76, "Medium" for one above 95.76
    and at most 349.97, "High" for one above 349.97 and "Unknown" for an
    input that [float] rejects. *)
Theorem map_tax_mapping (x : pyobj) :
  (exists l, map_tax parse x = Ok (PyStr l) /\
             l ∈ ["Low"; "Medium"; "High"; "Unknown"]) /\
  (forall f, py_float parse x = Ok f -> fleb f (float_lit 9576 100) = true ->
     map_tax parse x = Ok (PyStr "Low")) /\
  (forall f, py_float parse x = Ok f ->
     fltb (float_lit 9576 100) f = true ->
     fleb f (float_lit 34997 100) = true ->
     map_tax parse x = Ok (PyStr "Medium")) /\
  (forall f, py_float parse x = Ok f ->
     fltb (float_lit 34997 100) f = true ->
     map_tax parse x = Ok (PyStr "High")) /\
  (forall e, py_float parse x = Raise e ->
     map_tax parse x = Ok (PyStr "Unknown")).
Proof.
  unfold map_tax. repeat split.
  - destruct (py_float parse x) as [f|e];
      [|eexists; split; [reflexivity | set_solver]].
    destruct (fleb f (float_lit 9576 100));
      [eexists; split; [reflexivity | set_solver]|].
    destruct (fleb f _); eexists; (split; [reflexivity | set_solver]).
  - intros f -> H. now rewrite H.
  - intros f -> H1 H2. rewrite H2.
    now rewrite (fltb_not_fleb _ _ H1).
  - intros f -> H.
    replace (fleb f (float_lit 9576 100)) with false
      by (symmetry; float_order).
    now rewrite (fltb_not_fleb _ _ H).
  - intros e ->. reflexivity.
Qed.

(** C9. A numeric review strictly between 2 and 3 is "High", and a NaN is
    "High" for both the review level and the tax level. *)
Theorem levels_gap_and_nan (x : pyobj) (f : float) :
  py_float parse x = Ok f ->
  (fltb (of_int 2) f = true -> fltb f (of_int 3) = true ->
     categorize_review parse x = Ok (PyStr "High")) /\
  (is_nan f = true ->
     categorize_review parse x = Ok (PyStr "High") /\
     map_tax parse x = Ok (PyStr "High")).
Proof.
  intros Hx. unfold categorize_review, map_tax. rewrite Hx. split.
  - intros H2 H3. rewrite (fltb_not_fleb _ _ H2).
    replace (feqb f (of_int 3)) with false by (symmetry; float_order).
    reflexivity.
  - intros Hn. now rewrite !nan_fleb, nan_feqb.
Qed.

End CellLevels.

Lemma categorize_review_mapping_witness :
  categorize_review reject_text (PyInt 2) = Ok (PyStr "Low") /\
  categorize_review reject_text (PyFloat (of_int 3)) = Ok (PyStr "Medium") /\
  categorize_review reject_text (PyInt 5) = Ok (PyStr "High") /\
  categorize_review reject_text (PyStr "n/a") = Ok (PyStr "Unknown").
Proof.
  split; [|split; [|split]].
  - apply (proj1 (proj2 (categorize_review_mapping reject_text (PyInt 2)))
             (of_int 2)); reflexivity.
  - apply (proj1 (proj2 (proj2
             (categorize_review_mapping reject_text (PyFloat (of_int 3)))))
             (of_int 3)); reflexivity.
  - apply (proj1 (proj2 (proj2 (proj2
             (categorize_review_mapping reject_text (PyInt 5)))))
             (of_int 5)); reflexivity.
  - apply (proj2 (proj2 (proj2 (proj2
             (categorize_review_mapping reject_text (PyStr "n/a")))))
             ValueError); reflexivity.
Defined.

Lemma map_tax_mapping_witness :
  map_tax reject_text (PyFloat (float_lit 9576 100)) = Ok (PyStr "Low") /\
  map_tax reject_text (PyInt 100) = Ok (PyStr "Medium") /\
  map_tax reject_text (PyInt 350) = Ok (PyStr "High") /\
  map_tax reject_text PyNone = Ok (PyStr "Unknown").
Proof.
  split; [|split; [|split]].
  - apply (proj1 (proj2
             (map_tax_mapping reject_text (PyFloat (float_lit 9576 100))))
             (float_lit 9576 100)); reflexivity.
  - apply (proj1 (proj2 (proj2 (map_tax_mapping reject_text (PyInt 100))))
             (of_int 100)); reflexivity.
  - apply (proj1 (proj2 (proj2 (proj2
             (map_tax_mapping reject_text (PyInt 350)))))
             (of_int 350)); reflexivity.
  - apply (proj2 (proj2 (proj2 (proj2 (map_tax_mapping reject_text PyNone))))
             TypeError); reflexivity.
Defined.

Lemma levels_gap_and_nan_witness :
  categorize_review reject_text (PyFloat (float_lit 5 2)) = Ok (PyStr "High") /\
  categorize_review reject_text (PyFloat nan) = Ok (PyStr "High") /\
  map_tax reject_text (PyFloat nan) = Ok (PyStr "High").
Proof.
  split.
  - apply (proj1 (levels_gap_and_nan reject_text (PyFloat (float_lit 5 2))
                    (float_lit 5 2) eq_refl)); reflexivity.
  - apply (proj2 (levels_gap_and_nan reject_text (PyFloat nan) nan eq_refl)).
    reflexivity.
Defined.

(** ** Income categories *)

Section IncomeCategory.

Lemma np_lt_number (a b : float) : is_nan b = false -> np_lt a b = fltb a b.
Proof. intros H. unfold np_lt. rewrite H. apply orb_false_r. Qed.

Lemma fleb_number_l (a b : float) : fleb a b = true -> is_nan a = false.
Proof. intros H. apply fleb_key in H. tauto. Qed.

Lemma fltb_number_r (a b : float) : fltb a b = true -> is_nan b = false.
Proof. intros H. apply fltb_key in H. tauto. Qed.

Lemma fleb_number_r (a b : float) : fleb a b = true -> is_nan b = false.
Proof. intros H. apply fleb_key in H. tauto. Qed.

(** The category of a number, by the edges below it. *)
Lemma income_category_number (top v : float) :
  is_nan v = false ->
  income_category top v =
    if feqb v (of_int 0) then PyStr "Low"
    else if negb (fltb (of_int 0) v) then PyFloat nan
    else if negb (fltb (of_int 38000) v) then PyStr "Low"
    else if negb (fltb (of_int 69000) v) then PyStr "Medium"
    else if negb (fltb (of_int 99000) v) then PyStr "High"
    else if negb (fltb top v) then PyStr "Very High"
    else PyFloat nan.
Proof.
  intros Hv. unfold income_category, cut_one, income_edges, income_labels.
  cbn [searchsorted_left hd length andb].
  rewrite !np_lt_number, Hv by exact Hv.
  destruct (feqb v (of_int 0)); [reflexivity|].
  destruct (fltb (of_int 0) v); [|reflexivity].
  destruct (fltb (of_int 38000) v); [|reflexivity].
  destruct (fltb (of_int 69000) v); [|reflexivity].
  destruct (fltb (of_int 99000) v); [|reflexivity].
  destruct (fltb top v); reflexivity.
Qed.

(** With a maximum above 99000 the edges are accepted. *)
Lemma income_edges_accepted (top : float) :
  fltb (of_int 99000) top = true ->
  is_monotonic_increasing (income_edges top) = true /\
  has_duplicates (income_edges top) = false.
Proof.
  intros Htop. pose proof (fltb_number_r _ _ Htop) as Hn.
  unfold income_edges, is_monotonic_increasing, has_duplicates, existsb,
    same_value.
  rewrite Hn.
  replace (fleb (of_int 99000) top) with true by (symmetry; float_order).
  replace (feqb (of_int 0) top) with false by (symmetry; float_order).
  replace (feqb (of_int 38000) top) with false by (symmetry; float_order).
  replace (feqb (of_int 69000) top) with false by (symmetry; float_order).
  replace (feqb (of_int 99000) top) with false by (symmetry; float_order).
  split; reflexivity.
Qed.

Lemma income_cells_accepted (s : list pyobj) (x : list float) :
  map_res to_float64 s = Ok x ->
  fltb (of_int 99000) (nanmax x) = true ->
  income_cells s = Ok (map (income_category (nanmax x)) x).
Proof.
  intros Hs Htop. unfold income_cells, series_max, cut. rewrite Hs.
  cbn [res_bind].
  destruct (income_edges_accepted _ Htop) as [-> ->]. reflexivity.
Qed.

(** No number of a column is above the column's maximum. *)
Lemma nanmax_upper (xs : list float) (v : float) :
  v ∈ xs -> is_nan v = false ->
  is_nan (nanmax xs) = false /\ fleb v (nanmax xs) = true.
Proof.
  intros Hin Hv. unfold nanmax.
  assert (H : v ∈ xs \/ (is_nan nan = false /\ fleb v nan = true))
    by now left.
  clear Hin. revert H. generalize nan as acc.
  induction xs as [|x xs IH]; intros acc H; cbn [fold_left].
  - destruct H as [H|H]; [now apply elem_of_nil in H | exact H].
  - apply IH. destruct H as [H|[Ha Hle]].
    + apply elem_of_cons in H as [<-|H]; [right | now left].
      rewrite Hv. destruct (is_nan acc) eqn:Ha.
      * split; [exact Hv | float_order].
      * destruct (fltb acc v) eqn:E; (split; [assumption | float_order]).
    + right. destruct (is_nan x) eqn:Hx; [now split|]. rewrite Ha.
      destruct (fltb acc x) eqn:E; (split; [assumption | float_order]).
Qed.

End IncomeCategory.

Section IncomeClaims.

(** C1, as the code has it.  With a column maximum above 99000 the edges
    are accepted, every cell gets the category of its value, and the bins
    are closed on the right: "Low" for
    0 <= v <= 38000, "Medium" for 38000 < v <= 69000, "High" for
    69000 < v <= 99000 and "Very High" for 99000 < v <= maximum.  The
    lowest edge 0 is in "Low", and each interior edge belongs to the lower
    bin. *)
Theorem income_category_right_closed (top v : float) :
  fltb (of_int 99000) top = true ->
  (forall s x, map_res to_float64 s = Ok x -> nanmax x = top ->
     income_cells s = Ok (map (income_category top) x)) /\
  (fleb (of_int 0) v = true -> fleb v (of_int 38000) = true ->
     income_category top v = PyStr "Low") /\
  (fltb (of_int 38000) v = true -> fleb v (of_int 69000) = true ->
     income_category top v = PyStr "Medium") /\
  (fltb (of_int 69000) v = true -> fleb v (of_int 99000) = true ->
     income_category top v = PyStr "High") /\
  (fltb (of_int 99000) v = true -> fleb v top = true ->
     income_category top v = PyStr "Very High").
Proof.
  intros Htop. split; [|repeat split].
  - intros s x Hs <-. now apply income_cells_accepted.
  - intros H1 H2. rewrite income_category_number by eauto using fleb_number_l.
    destruct (feqb v (of_int 0)) eqn:E0; [reflexivity|].
    replace (fltb (of_int 0) v) with true by (symmetry; float_order).
    replace (fltb (of_int 38000) v) with false by (symmetry; float_order).
    reflexivity.
  - intros H1 H2. rewrite income_category_number by eauto using fleb_number_l.
    replace (feqb v (of_int 0)) with false by (symmetry; float_order).
    replace (fltb (of_int 0) v) with true by (symmetry; float_order).
    rewrite H1.
    replace (fltb (of_int 69000) v) with false by (symmetry; float_order).
    reflexivity.
  - intros H1 H2. rewrite income_category_number by eauto using fleb_number_l.
    replace (feqb v (of_int 0)) with false by (symmetry; float_order).
    replace (fltb (of_int 0) v) with true by (symmetry; float_order).
    replace (fltb (of_int 38000) v) with true by (symmetry; float_order).
    rewrite H1.
    replace (fltb (of_int 99000) v) with false by (symmetry; float_order).
    reflexivity.
  - intros H1 H2. rewrite income_category_number by eauto using fleb_number_l.
    replace (feqb v (of_int 0)) with false by (symmetry; float_order).
    replace (fltb (of_int 0) v) with true by (symmetry; float_order).
    replace (fltb (of_int 38000) v) with true by (symmetry; float_order).
    replace (fltb (of_int 69000) v) with true by (symmetry; float_order).
    rewrite H1.
    replace (fltb top v) with false by (symmetry; float_order).
    reflexivity.
Qed.

(** The rank of the category is the number of interior edges below the
    income. *)
Lemma income_category_rank (top v : float) :
  fltb (of_int 99000) top = true ->
  fleb (of_int 0) v = true -> fleb v top = true ->
  income_category top v ∈ map PyStr income_labels /\
  category_rank (income_category top v) =
    Some (Nat.b2n (fltb (of_int 38000) v) + Nat.b2n (fltb (of_int 69000) v)
          + Nat.b2n (fltb (of_int 99000) v))%nat.
Proof.
  intros Htop H0 Hv.
  rewrite !income_category_number by eauto using fleb_number_l.
  replace (fltb top v) with false by (symmetry; float_order).
  destruct (feqb v (of_int 0)) eqn:Ev0.
  - replace (fltb (of_int 38000) v) with false by (symmetry; float_order).
    replace (fltb (of_int 69000) v) with false by (symmetry; float_order).
    replace (fltb (of_int 99000) v) with false by (symmetry; float_order).
    split; [set_solver | reflexivity].
  - replace (fltb (of_int 0) v) with true by (symmetry; float_order).
    destruct (fltb (of_int 99000) v) eqn:E3.
    + replace (fltb (of_int 38000) v) with true by (symmetry; float_order).
      replace (fltb (of_int 69000) v) with true by (symmetry; float_order).
      split; [set_solver | reflexivity].
    + destruct (fltb (of_int 69000) v) eqn:E2.
      * replace (fltb (of_int 38000) v) with true by (symmetry; float_order).
        split; [set_solver | reflexivity].
      * destruct (fltb (of_int 38000) v);
          (split; [set_solver | reflexivity]).
Qed.

Lemma below_mono (c v w : float) :
  fleb v w = true -> (Nat.b2n (fltb c v) <= Nat.b2n (fltb c w))%nat.
Proof.
  intros Hvw. destruct (fltb c v) eqn:E; [|cbn; lia].
  now rewrite (fltb_fleb_trans _ _ _ E Hvw).
Qed.

(** C2, as the code has it.  With a column maximum above 99000, every
    income from 0 to the maximum gets one of the four labels, and the rank
    of the label does not decrease when the income increases. *)
Theorem income_category_label_monotone (top v w : float) :
  fltb (of_int 99000) top = true ->
  fleb (of_int 0) v = true -> fleb v w = true -> fleb w top = true ->
  income_category top v ∈ map PyStr income_labels /\
  exists rv rw,
    category_rank (income_category top v) = Some rv /\
    category_rank (income_category top w) = Some rw /\
    (rv <= rw)%nat.
Proof.
  intros Htop H0 Hvw Hw.
  assert (Hv : fleb v top = true) by eauto using fleb_trans.
  assert (H0w : fleb (of_int 0) w = true) by eauto using fleb_trans.
  destruct (income_category_rank top v Htop H0 Hv) as [Hin Hrv].
  destruct (income_category_rank top w Htop H0w Hw) as [_ Hrw].
  split; [exact Hin|]. do 2 eexists. repeat split; [eassumption..|].
  pose proof (below_mono (of_int 38000) v w Hvw).
  pose proof (below_mono (of_int 69000) v w Hvw).
  pose proof (below_mono (of_int 99000) v w Hvw).
  lia.
Qed.

End IncomeClaims.

Lemma income_category_right_closed_witness :
  income_category (of_int 200000) (of_int 0) = PyStr "Low" /\
  income_category (of_int 200000) (of_int 69000) = PyStr "Medium" /\
  income_category (of_int 200000) (of_int 99000) = PyStr "High" /\
  income_category (of_int 200000) (of_int 200000) = PyStr "Very High".
Proof.
  pose proof (fun v =>
    income_category_right_closed (of_int 200000) v eq_refl) as H.
  split; [|split; [|split]].
  - apply (proj1 (proj2 (H (of_int 0)))); reflexivity.
  - apply (proj1 (proj2 (proj2 (H (of_int 69000))))); reflexivity.
  - apply (proj1 (proj2 (proj2 (proj2 (H (of_int 99000)))))); reflexivity.
  - apply (proj2 (proj2 (proj2 (proj2 (H (of_int 200000)))))); reflexivity.
Defined.

(** The interior edge 38000 is in "Low", not in "Medium", although
    38000 <= 38000 < 69000 and the maximum 200000 is at least 99000; and a
    column whose maximum is exactly 99000 is refused by [cut], which raises
    [ValueError] for the repeated edge. *)
Lemma income_edge_counterexample :
  (fleb (of_int 99000) (of_int 200000) = true /\
   fleb (of_int 38000) (of_int 38000) = true /\
   fltb (of_int 38000) (of_int 69000) = true /\
   income_category (of_int 200000) (of_int 38000) = PyStr "Low" /\
   income_category (of_int 200000) (of_int 38000) <> PyStr "Medium") /\
  (fleb (of_int 99000) (of_int 99000) = true /\
   series_max [PyInt 50000; PyInt 99000] = Ok (of_int 99000) /\
   cut [PyInt 50000; PyInt 99000] (income_edges (of_int 99000))
     income_labels true = Raise ValueError).
Proof. repeat split; try reflexivity. discriminate. Qed.

Lemma income_category_label_monotone_witness :
  income_category (of_int 200000) (of_int 50000)
    ∈ map PyStr income_labels /\
  exists rv rw,
    category_rank (income_category (of_int 200000) (of_int 50000)) = Some rv /\
    category_rank (income_category (of_int 200000) (of_int 90000)) = Some rw /\
    (rv <= rw)%nat.
Proof.
  apply (income_category_label_monotone
           (of_int 200000) (of_int 50000) (of_int 90000)); reflexivity.
Defined.

(** A negative income gets no label (the missing value NaN), and a column
    whose maximum is below 99000 gets no category at all: [cut] raises
    [ValueError] because the edges decrease. *)
Lemma income_missing_counterexample :
  (series_max [PyInt (-5); PyInt 200000] = Ok (of_int 200000) /\
   cut [PyInt (-5); PyInt 200000] (income_edges (of_int 200000))
     income_labels true = Ok [PyFloat nan; PyStr "Very High"] /\
   category_rank (income_category (of_int 200000) (of_int (-5))) = None) /\
  (series_max [PyInt 10000; PyInt 50000] = Ok (of_int 50000) /\
   cut [PyInt 10000; PyInt 50000] (income_edges (of_int 50000))
     income_labels true = Raise ValueError).
Proof. repeat split; reflexivity. Qed.

(** C8. On the dataframe whose Income column is 10000, 50000, 90000, 200000
    the maximum is 200000 and the derivation adds the column Income_Category
    with "Low", "Medium", "High", "Very High". *)
Theorem income_scenario :
  series_max [PyInt 10000; PyInt 50000; PyInt 90000; PyInt 200000]
    = Ok (of_int 200000) /\
  ensure_income_category 1%positive "Income" scenario_store =
    (Ok 1%positive,
     {[ 1%positive :=
          mkDataFrame 4
            [("Income",
              [PyInt 10000; PyInt 50000; PyInt 90000; PyInt 200000]);
             ("Income_Category",
              [PyStr "Low"; PyStr "Medium"; PyStr "High";
               PyStr "Very High"])] ]}).
Proof. split; vm_compute; reflexivity. Qed.

(** ** The derivations and the store *)

Section StoreFacts.

Variable parse : string -> option float.

Lemma get_column_Some (c : string) (cs : list (string * list pyobj)) vs :
  get_column c cs = Some vs -> (c, vs) ∈ cs.
Proof.
  induction cs as [|[c' vs'] cs IH]; cbn [get_column]; [discriminate|].
  destruct (String.eqb_spec c c') as [->|Hne].
  - intros [= ->]. apply elem_of_cons; left; reflexivity.
  - intros H. apply elem_of_cons; right; apply IH, H.
Qed.

Lemma set_column_new (c : string) vs (cs : list (string * list pyobj)) :
  c ∉ map fst cs -> set_column c vs cs = cs ++ [(c, vs)].
Proof.
  induction cs as [|[c' vs'] cs IH]; cbn [set_column map fst];
    [reflexivity|].
  rewrite not_elem_of_cons. intros [Hne Hnin].
  destruct (String.eqb_spec c c') as [->|_]; [congruence|].
  now rewrite IH.
Qed.

Lemma set_column_present (c : string) vs (cs : list (string * list pyobj)) :
  c ∈ map fst (set_column c vs cs).
Proof.
  induction cs as [|[c' vs'] cs IH]; cbn [set_column map fst].
  - apply elem_of_cons; left; reflexivity.
  - destruct (String.eqb_spec c c') as [->|_]; cbn [map fst].
    + apply elem_of_cons; left; reflexivity.
    + apply elem_of_cons; right; apply IH.
Qed.



Lemma ensure_review_level_shape (df : ref) (col : string) (h : store) :
  ensure_review_level parse df col h =
    derive "Review_Level" (map_res (categorize_review parse)) df col h.
Proof.
  unfold ensure_review_level, derive, df_columns, df_getitem, df_setitem,
    df_read, bind, ret, raise, lift.
  destruct (h !! df) as [d|] eqn:Hd; [|reflexivity].
  destruct (bool_decide _); [reflexivity|]. rewrite Hd.
  destruct (get_column col (data d)); [|reflexivity].
  destruct (map_res _ _); [|reflexivity]. now rewrite Hd.
Qed.

Lemma ensure_tax_level_shape (df : ref) (col : string) (h : store) :
  ensure_tax_level parse df col h =
    derive "Tax_Level" (map_res (map_tax parse)) df col h.
Proof.
  unfold ensure_tax_level, derive, df_columns, df_getitem, df_setitem,
    df_read, bind, ret, raise, lift.
  destruct (h !! df) as [d|] eqn:Hd; [|reflexivity].
  destruct (bool_decide _); [reflexivity|]. rewrite Hd.
  destruct (get_column col (data d)); [|reflexivity].
  destruct (map_res _ _); [|reflexivity]. now rewrite Hd.
Qed.

Lemma ensure_income_category_shape (df : ref) (col : string) (h : store) :
  ensure_income_category df col h =
    derive "Income_Category" income_cells df col h.
Proof.
  unfold ensure_income_category, derive, income_cells, df_columns,
    df_getitem, df_setitem, df_read, bind, ret, raise, lift.
  destruct (h !! df) as [d|] eqn:Hd; [|reflexivity].
  destruct (bool_decide _); [reflexivity|]. rewrite Hd.
  destruct (get_column col (data d)) as [s|] eqn:Hs; [|reflexivity].
  destruct (series_max s); [|reflexivity]. cbn [res_bind].
  rewrite Hd, Hs. destruct (cut _ _ _ _); [|reflexivity]. now rewrite Hd.
Qed.

(** *** The shared shape: no-op, idempotence, frame *)

Section Derive.

Variable target : string.
Variable compute : list pyobj -> res (list pyobj).
Hypothesis compute_length :
  forall s vs, compute s = Ok vs -> length vs = length s.

Lemma derive_present (df : ref) (src : string) (h : store) d :
  h !! df = Some d -> target ∈ columns d ->
  derive target compute df src h = (Ok df, h).
Proof.
  intros Hd Hin. unfold derive. rewrite Hd.
  now rewrite bool_decide_eq_true_2.
Qed.

Lemma derive_twice (df : ref) (src : string) (h : store) :
  bind (derive target compute df src)
       (fun r => derive target compute r src) h =
  derive target compute df src h.
Proof.
  unfold bind.
  destruct (derive target compute df src h) as [[r|e] h'] eqn:E;
    [|reflexivity].
  unfold derive in E. destruct (h !! df) as [d|] eqn:Hd; [|discriminate].
  destruct (bool_decide (target ∈ columns d)) eqn:Hin.
  - injection E as <- <-. apply bool_decide_eq_true_1 in Hin.
    eauto using derive_present.
  - destruct (get_column src (data d)); [|discriminate].
    destruct (compute l); [|discriminate]. injection E as <- <-.
    eapply derive_present; [apply lookup_insert_eq|].
    apply set_column_present.
Qed.




End Derive.

Lemma shape_twice (f : ref -> string -> M ref) target compute :
  (forall df col h, f df col h = derive target compute df col h) ->
  forall df col h, bind (f df col) (fun r => f r col) h = f df col h.
Proof.
  intros Hf df col h. pose proof (derive_twice target compute df col h) as H.
  unfold bind in *. rewrite Hf.
  destruct (derive target compute df col h) as [[r|e] h']; [|reflexivity].
  now rewrite Hf.
Qed.

(** C6. On a dataframe that already has the target column each derivation
    returns the dataframe and leaves the store as it is; and calling a
    derivation on its own result gives what one call gives. *)
Theorem ensure_existing_column_noop (df : ref) (col : string) (h : store) d :
  h !! df = Some d ->
  ("Review_Level" ∈ columns d ->
     ensure_review_level parse df col h = (Ok df, h)) /\
  ("Income_Category" ∈ columns d ->
     ensure_income_category df col h = (Ok df, h)) /\
  ("Tax_Level" ∈ columns d ->
     ensure_tax_level parse df col h = (Ok df, h)) /\
  bind (ensure_review_level parse df col)
       (fun r => ensure_review_level parse r col) h
    = ensure_review_level parse df col h /\
  bind (ensure_income_category df col)
       (fun r => ensure_income_category r col) h
    = ensure_income_category df col h /\
  bind (ensure_tax_level parse df col)
       (fun r => ensure_tax_level parse r col) h
    = ensure_tax_level parse df col h.
Proof.
  intros Hd. split; [|split; [|split; [|split; [|split]]]].
  - intros Hin. rewrite ensure_review_level_shape.
    eauto using derive_present.
  - intros Hin. rewrite ensure_income_category_shape.
    eauto using derive_present.
  - intros Hin. rewrite ensure_tax_level_shape. eauto using derive_present.
  - apply (shape_twice (ensure_review_level parse) _ _
             ensure_review_level_shape).
  - apply (shape_twice ensure_income_category _ _
             ensure_income_category_shape).
  - apply (shape_twice (ensure_tax_level parse) _ _ ensure_tax_level_shape).
Qed.


(** C7. [first_col] returns the first candidate, in the order of the list,
    that is a column of the dataframe, returns [None] exactly when no
    candidate is a column, and leaves the store as it is. *)
Theorem first_col_first_present (df : ref) (candidates : list string)
    (h : store) d :
  h !! df = Some d ->
  exists r,
    first_col df candidates h = (Ok r, h) /\
    (forall c, r = Some c <->
       exists before after,
         candidates = before ++ c :: after /\ c ∈ columns d /\
         forall c', c' ∈ before -> c' ∉ columns d) /\
    (r = None <-> forall c, c ∈ candidates -> c ∉ columns d).
Proof.
  intros Hd. induction candidates as [|a rest IH]; cbn [first_col].
  - exists None. split; [reflexivity|]. split.
    + intros c. split; [discriminate|].
      intros (before & after & H & _). now destruct before.
    + split; [intros _ c Hc; now apply elem_of_nil in Hc | reflexivity].
  - unfold bind, df_columns, df_read, ret. unfold bind. rewrite Hd.
    destruct (bool_decide (a ∈ columns d)) eqn:Ha.
    + apply bool_decide_eq_true_1 in Ha. exists (Some a).
      split; [reflexivity|]. split.
      * intros c. split.
        -- intros [= <-]. exists [], rest. repeat split; [exact Ha|].
           intros c' Hc'. now apply elem_of_nil in Hc'.
        -- intros (before & after & H & Hc & Hb).
           destruct before as [|b before]; cbn in H.
           ++ now injection H as ->.
           ++ injection H as <- _. exfalso.
              apply (Hb a); [apply elem_of_cons; now left | exact Ha].
      * split; [discriminate|]. intros H. exfalso.
        apply (H a); [apply elem_of_cons; now left | exact Ha].
    + apply bool_decide_eq_false_1 in Ha.
      destruct IH as (r & Hrun & Hsome & Hnone). exists r.
      split; [exact Hrun|]. split.
      * intros c. rewrite Hsome. split.
        -- intros (before & after & -> & Hc & Hb).
           exists (a :: before), after. repeat split; [exact Hc|].
           intros c' Hc'. apply elem_of_cons in Hc' as [->|Hc']; auto.
        -- intros (before & after & H & Hc & Hb).
           destruct before as [|b before]; cbn in H.
           ++ injection H as -> _. contradiction.
           ++ injection H as <- ->. exists before, after.
              repeat split; [exact Hc|]. intros c' Hc'.
              apply Hb, elem_of_cons. now right.
      * rewrite Hnone. split.
        -- intros H c Hc. apply elem_of_cons in Hc as [->|Hc]; auto.
        -- intros H c Hc. apply H, elem_of_cons. now right.
Qed.

End StoreFacts.

Lemma ensure_existing_column_noop_witness :
  ensure_review_level reject_text 1%positive "Reviews" derived_store
    = (Ok 1%positive, derived_store) /\
  ensure_income_category 1%positive "Reviews" derived_store
    = (Ok 1%positive, derived_store) /\
  ensure_tax_level reject_text 1%positive "Reviews" derived_store
    = (Ok 1%positive, derived_store).
Proof.
  pose proof (ensure_existing_column_noop reject_text 1%positive "Reviews"
                derived_store derived_frame eq_refl) as (H1 & H2 & H3 & _).
  split; [apply H1 | split; [apply H2 | apply H3]];
    apply (bool_decide_unpack _); exact I.
Defined.


Lemma first_col_first_present_witness :
  exists r,
    first_col 1%positive ["income"; "Income"; "Annual_Income"] scenario_store
      = (Ok r, scenario_store) /\
    (forall c, r = Some c <->
       exists before after,
         ["income"; "Income"; "Annual_Income"] = before ++ c :: after /\
         c ∈ columns scenario_frame /\
         forall c', c' ∈ before -> c' ∉ columns scenario_frame) /\
    (r = None <->
       forall c, c ∈ ["income"; "Income"; "Annual_Income"] ->
                 c ∉ columns scenario_frame).
Proof.
  exact (first_col_first_present 1%positive
           ["income"; "Income"; "Annual_Income"] scenario_store
           scenario_frame eq_refl).
Defined.

(** ** The auto-calculated fields *)

Section AutoCalculations.

(** C3, as the code has it.  [Price] is [Quantity * Unit_Price],
    [total_price] is [Price + Tax] and [tax_ratio] is [Tax / (Price + 1)],
    each rounded to binary64; for a [Price] that is not negative the
    divisor is not zero and nothing is raised.  Quantity 3, unit price
    776.17 and tax 241.24 give the [Price] next below 2328.51
    (2328.5099999999998), [total_price] 2569.75 and the [tax_ratio] next
    above 241.24/2329.51; quantity 1, unit price 0 and tax 0 give 0, 0
    and 0. *)
Theorem auto_calculations_values :
  (forall Quantity Unit_Price Tax quantity,
     int_to_float Quantity = Ok quantity ->
     fleb (of_int 0) (fmul quantity Unit_Price) = true ->
     is_zero (fadd (fmul quantity Unit_Price) (of_int 1)) = false /\
     auto_calculations Quantity Unit_Price Tax =
       Ok (mkAutoCalc
             (fmul quantity Unit_Price)
             (fadd (fmul quantity Unit_Price) Tax)
             (fdiv Tax (fadd (fmul quantity Unit_Price) (of_int 1))))) /\
  auto_calculations 3 (float_lit 77617 100) (float_lit 24124 100) =
    Ok (mkAutoCalc
          (fpred (float_lit 232851 100))
          (float_lit 256975 100)
          (fsucc (fdiv (float_lit 24124 100) (float_lit 232951 100)))) /\
  auto_calculations 1 (of_int 0) (of_int 0) =
    Ok (mkAutoCalc (of_int 0) (of_int 0) (of_int 0)).
Proof.
  split; [|split; vm_compute; reflexivity].
  intros Quantity Unit_Price Tax quantity Hq Hp.
  pose proof (fadd_one_nonzero _ (fmul_exponent _ _) Hp) as Hnz.
  split; [exact Hnz|].
  unfold auto_calculations, py_truediv. rewrite Hq. cbn [res_bind].
  now rewrite Hnz.
Qed.

(** The three fields of the first example as [float.hex] shows them:
    0x1.231051eb851ebp+11 (2328.5099999999998), 0x1.4138p+11 (2569.75) and
    0x1.a82cb47c70a21p-4 (0.10355825903301553). *)
Example auto_calculations_example :
  auto_calculations 3 (float_lit 77617 100) (float_lit 24124 100) =
    Ok (mkAutoCalc
          (S754_finite false 0x1231051eb851eb (11 - 52))
          (S754_finite false 0x14138000000000 (11 - 52))
          (S754_finite false 0x1a82cb47c70a21 (-4 - 52))).
Proof. vm_compute. reflexivity. Qed.

End AutoCalculations.

Lemma auto_calculations_values_witness :
  is_zero (fadd (fmul (of_int 3) (float_lit 77617 100)) (of_int 1)) = false /\
  auto_calculations 3 (float_lit 77617 100) (float_lit 24124 100) =
    Ok (mkAutoCalc
          (fmul (of_int 3) (float_lit 77617 100))
          (fadd (fmul (of_int 3) (float_lit 77617 100)) (float_lit 24124 100))
          (fdiv (float_lit 24124 100)
                (fadd (fmul (of_int 3) (float_lit 77617 100)) (of_int 1)))).
Proof.
  apply (proj1 auto_calculations_values 3 (float_lit 77617 100)
           (float_lit 24124 100) (of_int 3)); reflexivity.
Defined.

(** In binary64 the product 3 * 776.17 is not the float 2328.51, and the
    ratio is not the float 241.24/2329.51. *)
Lemma auto_calculations_counterexample :
  exists r,
    auto_calculations 3 (float_lit 77617 100) (float_lit 24124 100) = Ok r /\
    feqb (Price r) (float_lit 232851 100) = false /\
    feqb (tax_ratio r)
         (fdiv (float_lit 24124 100) (float_lit 232951 100)) = false.
Proof. eexists. split; [vm_compute; reflexivity|]. split; reflexivity. Qed.

(** ** Normalised labels *)

Module PyStringFacts.

Import PyString.

Lemma lstrip_start (s : string) : starts_with_space (lstrip s) = false.
Proof.
  induction s as [|a s IH]; cbn [lstrip]; [reflexivity|].
  destruct (isspace a) eqn:Ha; [exact IH | cbn; exact Ha].
Qed.

Lemma lstrip_id (s : string) : starts_with_space s = false -> lstrip s = s.
Proof. destruct s as [|a s]; cbn; [reflexivity|]. now intros ->. Qed.

Lemma rstrip_end (s : string) : ends_with_space (rstrip s) = false.
Proof.
  induction s as [|a s IH]; cbn [rstrip]; [reflexivity|].
  destruct (rstrip s) as [|b kept] eqn:E.
  - destruct (isspace a) eqn:Ha; cbn; [reflexivity | exact Ha].
  - exact IH.
Qed.

Lemma rstrip_id (s : string) : ends_with_space s = false -> rstrip s = s.
Proof.
  induction s as [|a s IH]; cbn [rstrip ends_with_space]; [reflexivity|].
  destruct s as [|b s].
  - cbn. now intros ->.
  - intros H. now rewrite (IH H).
Qed.

Lemma rstrip_start (s : string) :
  starts_with_space s = false -> starts_with_space (rstrip s) = false.
Proof.
  destruct s as [|a s]; cbn [rstrip starts_with_space]; [reflexivity|].
  intros Ha. destruct (rstrip s); [rewrite Ha|]; cbn; exact Ha.
Qed.

Lemma replace_start (s : string) :
  starts_with_space s = false ->
  starts_with_space (replace " " "_" s) = false.
Proof.
  destruct s as [|a s]; cbn [replace starts_with_space]; [reflexivity|].
  intros Ha.
  destruct (Ascii.eqb_spec a " ") as [->|_]; [discriminate | exact Ha].
Qed.

Lemma replace_end (s : string) :
  ends_with_space s = false -> ends_with_space (replace " " "_" s) = false.
Proof.
  induction s as [|a s IH]; cbn [replace ends_with_space]; [reflexivity|].
  destruct s as [|b s].
  - cbn. intros Ha.
    destruct (Ascii.eqb_spec a " ") as [->|_]; [discriminate | exact Ha].
  - intros H. apply IH in H. exact H.
Qed.

Lemma replace_no_space (s : string) : has_char " " (replace " " "_" s) = false.
Proof.
  induction s as [|a s IH]; cbn [replace has_char]; [reflexivity|].
  rewrite IH, orb_false_r.
  destruct (Ascii.eqb_spec a " ") as [->|Hne]; [reflexivity|].
  now apply Ascii.eqb_neq.
Qed.

Lemma replace_id (s : string) :
  has_char " " s = false -> replace " " "_" s = s.
Proof.
  induction s as [|a s IH]; cbn [replace has_char]; [reflexivity|].
  intros H. apply orb_false_elim in H as [Ha Hs].
  now rewrite Ha, (IH Hs).
Qed.

End PyStringFacts.

Import PyStringFacts.

(** X1. A normalised label has no space in it and no character that [strip]
    removes at either end. *)
Theorem normalize_label_clean (c : string) :
  PyString.has_char " " (normalize_label c) = false /\
  PyString.starts_with_space (normalize_label c) = false /\
  PyString.ends_with_space (normalize_label c) = false.
Proof.
  unfold normalize_label, PyString.strip. split; [|split].
  - apply replace_no_space.
  - apply replace_start, rstrip_start, lstrip_start.
  - apply replace_end, rstrip_end.
Qed.

(** X2. Normalising is idempotent, and the labels it leaves as they are are
    exactly those without a space and without a character that [strip]
    removes at either end. *)
Theorem normalize_label_fixed (c : string) :
  normalize_label (normalize_label c) = normalize_label c /\
  (normalize_label c = c <->
   PyString.has_char " " c = false /\
   PyString.starts_with_space c = false /\
   PyString.ends_with_space c = false).
Proof.
  assert (Hfix : forall s,
    PyString.has_char " " s = false -> PyString.starts_with_space s = false ->
    PyString.ends_with_space s = false -> normalize_label s = s).
  { intros s H1 H2 H3. unfold normalize_label, PyString.strip.
    now rewrite (lstrip_id _ H2), (rstrip_id _ H3), (replace_id _ H1). }
  assert (H1 : PyString.has_char " " (normalize_label c) = false)
    by apply replace_no_space.
  assert (H2 : PyString.starts_with_space (normalize_label c) = false)
    by apply replace_start, rstrip_start, lstrip_start.
  assert (H3 : PyString.ends_with_space (normalize_label c) = false)
    by apply replace_end, rstrip_end.
  split.
  - now apply Hfix.
  - split; [intros <-; auto | intros (? & ? & ?); now apply Hfix].
Qed.

(** ** Loading and the column resolver *)

Section LoadingFacts.

Lemma zip_fst_snd {A B} (f : A -> A) (l : list (A * B)) :
  zip (map f (map fst l)) (map snd l) = map (fun c => (f (fst c), snd c)) l.
Proof.
  induction l as [|[a b] l IH]; cbn; [reflexivity|]. now rewrite <- IH.
Qed.

(** The two statements of [load_data] that follow the read. *)
Lemma relabel_run (df : ref) (h : store) d :
  h !! df = Some d ->
  bind (df_columns df)
       (fun cols =>
          bind (df_set_columns df (map normalize_label cols))
               (fun _ => ret df)) h
  = (Ok df, <[df := normalize_columns d]> h).
Proof.
  intros Hd. unfold bind, df_columns, df_set_columns, df_read, ret, raise.
  unfold bind. rewrite Hd. cbv beta iota. rewrite Hd. unfold columns.
  rewrite !length_map, Nat.eqb_refl. cbv beta iota delta [negb].
  unfold normalize_columns. now rewrite zip_fst_snd.
Qed.

Lemma normalize_columns_labels d :
  columns (normalize_columns d) = map normalize_label (columns d).
Proof.
  unfold columns, normalize_columns. cbn [data]. now rewrite !map_map.
Qed.

Lemma normalize_columns_cells d :
  map snd (data (normalize_columns d)) = map snd (data d).
Proof. unfold normalize_columns. cbn [data]. now rewrite map_map. Qed.

Lemma normalized_labels_clean (raw : list string) (c : string) :
  c ∈ map normalize_label raw ->
  PyString.has_char " " c = false /\
  PyString.starts_with_space c = false /\
  PyString.ends_with_space c = false.
Proof.
  intros Hc. apply list_elem_of_fmap in Hc as (r & -> & _).
  unfold normalize_label, PyString.strip. split; [|split].
  - apply PyStringFacts.replace_no_space.
  - apply PyStringFacts.replace_start, PyStringFacts.rstrip_start,
      PyStringFacts.lstrip_start.
  - apply PyStringFacts.replace_end, PyStringFacts.rstrip_end.
Qed.

(** X3. [load_data] of the analytics page on a sheet whose labels are text:
    when it returns, it returns the frame that was read, with every label
    normalised, in the same order and with the same rows and cells, and no
    other object is changed; when the read raises, [load_data] raises the
    same exception. *)
Theorem load_data_normalises (read_excel : string -> M ref) (path : string)
    (h : store) :
  (forall df h1 d r h2,
     read_excel path h = (Ok df, h1) -> h1 !! df = Some d ->
     load_data read_excel path h = (Ok r, h2) ->
     r = df /\
     exists d',
       h2 = <[df := d']> h1 /\
       columns d' = map normalize_label (columns d) /\
       map snd (data d') = map snd (data d) /\
       nrows d' = nrows d /\
       forall c, c ∈ columns d' ->
         PyString.has_char " " c = false /\
         PyString.starts_with_space c = false /\
         PyString.ends_with_space c = false) /\
  (forall e h1,
     read_excel path h = (Raise e, h1) ->
     load_data read_excel path h = (Raise e, h1)).
Proof.
  split.
  - intros df h1 d r h2 Hread Hd. unfold load_data. unfold bind at 1.
    rewrite Hread, (relabel_run df h1 d Hd). intros [= <- <-].
    split; [reflexivity|]. exists (normalize_columns d).
    split; [reflexivity|]. split; [apply normalize_columns_labels|].
    split; [apply normalize_columns_cells|]. split; [reflexivity|].
    intros c Hc. rewrite normalize_columns_labels in Hc.
    eauto using normalized_labels_clean.
  - intros e h1 Hread. unfold load_data. unfold bind at 1. now rewrite Hread.
Qed.

(** X4. [load_data] of the project information page: whichever reader the
    file selects, a frame that is loaded has only normalised labels. *)
Theorem project_load_data_normalises
    (read_csv read_excel : ProjectInformation.source -> M ref)
    (file_path : option string)
    (file_obj : option ProjectInformation.UploadedFile)
    (h h' : store) (df : ref) :
  (forall src h0 r h1, read_csv src h0 = (Ok r, h1) -> is_Some (h1 !! r)) ->
  (forall src h0 r h1, read_excel src h0 = (Ok r, h1) -> is_Some (h1 !! r)) ->
  ProjectInformation.load_data read_csv read_excel file_path file_obj h
    = (Ok df, h') ->
  exists d',
    h' !! df = Some d' /\
    forall c, c ∈ columns d' ->
      PyString.has_char " " c = false /\
      PyString.starts_with_space c = false /\
      PyString.ends_with_space c = false.
Proof.
  intros Hcsv Hxl. unfold ProjectInformation.load_data.
  set (read := match file_obj with
               | Some f =>
                   if PyString.endswith (ProjectInformation.name f) ".csv"
                   then read_csv (ProjectInformation.Upload f)
                   else read_excel (ProjectInformation.Upload f)
               | None => read_excel (ProjectInformation.Path file_path)
               end).
  assert (Hread : forall r h1, read h = (Ok r, h1) -> is_Some (h1 !! r)).
  { subst read. destruct file_obj as [f|]; [|eauto].
    destruct (PyString.endswith _ _); eauto. }
  unfold bind at 1. destruct (read h) as [[r|e] h1] eqn:E; [|discriminate].
  destruct (Hread r h1 eq_refl) as [d Hd].
  rewrite (relabel_run r h1 d Hd). intros [= <- <-].
  exists (normalize_columns d). split; [apply lookup_insert_eq|].
  intros c Hc. rewrite normalize_columns_labels in Hc.
  eauto using normalized_labels_clean.
Qed.

Lemma first_col_run (df : ref) (candidates : list string) (h : store) d :
  h !! df = Some d ->
  first_col df candidates h = (Ok (first_present (columns d) candidates), h).
Proof.
  intros Hd. induction candidates as [|c rest IH];
    cbn [first_col first_present]; [reflexivity|].
  unfold bind, df_columns, df_read, ret. unfold bind. rewrite Hd.
  cbv beta iota. destruct (bool_decide (c ∈ columns d)); [reflexivity|].
  exact IH.
Qed.

Lemma first_present_in (cols candidates : list string) (c : string) :
  first_present cols candidates = Some c -> c ∈ cols /\ c ∈ candidates.
Proof.
  induction candidates as [|a rest IH]; cbn [first_present]; [discriminate|].
  destruct (bool_decide (a ∈ cols)) eqn:Ha.
  - intros [= <-]. apply bool_decide_eq_true_1 in Ha.
    split; [exact Ha | apply elem_of_cons; now left].
  - intros H. destruct (IH H). split; [assumption|].
    apply elem_of_cons. now right.
Qed.

(** X5. On a frame whose labels are normalised, as [load_data] leaves them,
    a candidate with a space in it is never the answer of [first_col]: the
    answer is the one the candidates without a space give. *)
Theorem first_col_skips_spaced (df : ref) (candidates : list string)
    (h : store) d (raw : list string) :
  h !! df = Some d -> columns d = map normalize_label raw ->
  first_col df candidates h =
    first_col df
      (List.filter (fun c => negb (PyString.has_char " " c)) candidates) h /\
  forall c, first_col df candidates h = (Ok (Some c), h) ->
            PyString.has_char " " c = false.
Proof.
  intros Hd Hraw. rewrite !(first_col_run df _ h d Hd). split.
  - f_equal. f_equal.
    induction candidates as [|a rest IH]; cbn [List.filter first_present];
      [reflexivity|].
    destruct (bool_decide (a ∈ columns d)) eqn:Ha.
    + apply bool_decide_eq_true_1 in Ha. rewrite Hraw in Ha.
      destruct (normalized_labels_clean _ _ Ha) as [-> _].
      cbn [negb first_present]. rewrite Hraw.
      now rewrite bool_decide_eq_true_2.
    + destruct (negb _); [|exact IH]. cbn [first_present].
      now rewrite Ha.
  - intros c [= Hc]. apply first_present_in in Hc as [Hc _].
    rewrite Hraw in Hc. now destruct (normalized_labels_clean _ _ Hc).
Qed.

End LoadingFacts.

(** ** The derivations on a frame without the target column *)

Section DerivationFacts.

Variable parse : string -> option float.

Lemma get_column_absent (c : string) (cs : list (string * list pyobj)) :
  c ∉ map fst cs -> get_column c cs = None.
Proof.
  induction cs as [|[c' vs] cs IH]; cbn [get_column map fst]; [reflexivity|].
  rewrite not_elem_of_cons. intros [Hne Hnin].
  destruct (String.eqb_spec c c'); [contradiction | auto].
Qed.

Lemma get_column_present (c : string) (cs : list (string * list pyobj)) :
  c ∈ map fst cs -> exists vs, get_column c cs = Some vs.
Proof.
  induction cs as [|[c' vs] cs IH]; cbn [get_column map fst].
  - intros H. now apply elem_of_nil in H.
  - intros H. destruct (String.eqb_spec c c'); [eauto|].
    apply elem_of_cons in H as [H|H]; [contradiction | auto].
Qed.

Lemma get_column_app (c : string) (cs more : list (string * list pyobj)) vs :
  get_column c cs = Some vs -> get_column c (cs ++ more) = Some vs.
Proof.
  induction cs as [|[c' vs'] cs IH]; cbn [get_column app]; [discriminate|].
  destruct (String.eqb c c'); auto.
Qed.

Lemma get_column_last (c : string) (cs : list (string * list pyobj)) vs :
  c ∉ map fst cs -> get_column c (cs ++ [(c, vs)]) = Some vs.
Proof.
  induction cs as [|[c' vs'] cs IH]; cbn [get_column app map fst].
  - intros _. now rewrite String.eqb_refl.
  - rewrite not_elem_of_cons. intros [Hne Hnin].
    destruct (String.eqb_spec c c'); [contradiction | auto].
Qed.

Lemma derive_frame_run target compute (df : ref) (src : string) (h : store) d :
  h !! df = Some d ->
  derive target compute df src h =
    match derive_frame target compute src d with
    | Ok d' => (Ok df, <[df := d']> h)
    | Raise e => (Raise e, h)
    end.
Proof.
  intros Hd. unfold derive, derive_frame. rewrite Hd.
  destruct (bool_decide (target ∈ columns d)) eqn:Hin.
  - now rewrite insert_id.
  - apply bool_decide_eq_false_1 in Hin.
    destruct (get_column src (data d)); [|reflexivity].
    destruct (compute l); cbn [res_bind]; [|reflexivity].
    now rewrite set_column_new.
Qed.

(** A function that never raises maps over a whole column. *)
Lemma map_res_total {A B} (f : A -> res B) (l : list A) :
  (forall a, exists b, f a = Ok b) ->
  exists l', map_res f l = Ok l' /\ Forall2 (fun a b => f a = Ok b) l l'.
Proof.
  intros Hf. induction l as [|a l (l' & Hl & Hall)]; cbn [map_res].
  - exists []. split; [reflexivity | constructor].
  - destruct (Hf a) as [b Hb]. exists (b :: l'). rewrite Hb, Hl.
    split; [reflexivity | now constructor].
Qed.

Lemma Forall2_results {A B} (f : A -> res B) (P : B -> Prop) l l' :
  Forall2 (fun a b => f a = Ok b) l l' ->
  (forall a b, f a = Ok b -> P b) -> Forall P l'.
Proof. intros Hall Hf. induction Hall; constructor; eauto. Qed.

Lemma categorize_review_label (x : pyobj) :
  exists l, categorize_review parse x = Ok l /\
            l ∈ map PyStr ["Low"; "Medium"; "High"; "Unknown"].
Proof.
  unfold categorize_review. destruct (py_float parse x) as [f|e].
  - destruct (fleb f _); [eexists; split; [reflexivity | set_solver]|].
    destruct (feqb f _); eexists; (split; [reflexivity | set_solver]).
  - eexists; split; [reflexivity | set_solver].
Qed.

Lemma map_tax_label (x : pyobj) :
  exists l, map_tax parse x = Ok l /\
            l ∈ map PyStr ["Low"; "Medium"; "High"; "Unknown"].
Proof.
  unfold map_tax. destruct (py_float parse x) as [f|e].
  - destruct (fleb f (float_lit 9576 100));
      [eexists; split; [reflexivity | set_solver]|].
    destruct (fleb f _); eexists; (split; [reflexivity | set_solver]).
  - eexists; split; [reflexivity | set_solver].
Qed.

(** X6. On a frame that has neither the target column nor the source column,
    each derivation raises [KeyError] for the source column and leaves the
    store as it is. *)
Theorem ensure_missing_source (df : ref) (col : string) (h : store) d :
  h !! df = Some d -> col ∉ columns d ->
  ("Review_Level" ∉ columns d ->
     ensure_review_level parse df col h = (Raise (KeyError col), h)) /\
  ("Income_Category" ∉ columns d ->
     ensure_income_category df col h = (Raise (KeyError col), h)) /\
  ("Tax_Level" ∉ columns d ->
     ensure_tax_level parse df col h = (Raise (KeyError col), h)).
Proof.
  intros Hd Hcol. pose proof (get_column_absent col (data d) Hcol) as Hg.
  split; [|split]; intros Ht.
  - rewrite ensure_review_level_shape, (derive_frame_run _ _ _ _ _ _ Hd).
    unfold derive_frame. now rewrite bool_decide_eq_false_2, Hg.
  - rewrite ensure_income_category_shape, (derive_frame_run _ _ _ _ _ _ Hd).
    unfold derive_frame. now rewrite bool_decide_eq_false_2, Hg.
  - rewrite ensure_tax_level_shape, (derive_frame_run _ _ _ _ _ _ Hd).
    unfold derive_frame. now rewrite bool_decide_eq_false_2, Hg.
Qed.

(** X7. On a frame with distinct labels, without the target column and
    with the source column, the review and the tax derivation never raise:
    the frame gets the target column after its columns, with one label per
    cell of the source column, each the label of that cell and one of "Low",
    "Medium", "High", "Unknown"; reading the target column back gives these
    labels. *)
Theorem ensure_level_adds_labels (df : ref) (col : string) (h : store) d s :
  h !! df = Some d -> NoDup (columns d) ->
  get_column col (data d) = Some s ->
  ("Review_Level" ∉ columns d ->
     exists labels,
       ensure_review_level parse df col h =
         (Ok df,
          <[df := mkDataFrame (nrows d)
                    (data d ++ [("Review_Level", labels)])]> h) /\
       Forall2 (fun x l => categorize_review parse x = Ok l) s labels /\
       Forall (fun l => l ∈ map PyStr ["Low"; "Medium"; "High"; "Unknown"])
         labels /\
       df_getitem df "Review_Level"
         (snd (ensure_review_level parse df col h))
       = (Ok labels, snd (ensure_review_level parse df col h))) /\
  ("Tax_Level" ∉ columns d ->
     exists labels,
       ensure_tax_level parse df col h =
         (Ok df,
          <[df := mkDataFrame (nrows d)
                    (data d ++ [("Tax_Level", labels)])]> h) /\
       Forall2 (fun x l => map_tax parse x = Ok l) s labels /\
       Forall (fun l => l ∈ map PyStr ["Low"; "Medium"; "High"; "Unknown"])
         labels /\
       df_getitem df "Tax_Level" (snd (ensure_tax_level parse df col h))
       = (Ok labels, snd (ensure_tax_level parse df col h))).
Proof.
  intros Hd _ Hs. split; intros Ht.
  - destruct (map_res_total (categorize_review parse) s)
      as (labels & Hm & Hall).
    { intros a. destruct (categorize_review_label a) as (l & ? & _). eauto. }
    exists labels.
    assert (Hrun : ensure_review_level parse df col h =
      (Ok df, <[df := mkDataFrame (nrows d)
                        (data d ++ [("Review_Level", labels)])]> h)).
    { rewrite ensure_review_level_shape, (derive_frame_run _ _ _ _ _ _ Hd).
      unfold derive_frame. rewrite bool_decide_eq_false_2, Hs, Hm by exact Ht.
      reflexivity. }
    rewrite Hrun. split; [reflexivity|]. split; [exact Hall|]. split.
    + apply (Forall2_results _ _ _ _ Hall). intros x l Hx.
      destruct (categorize_review_label x) as (l' & Hl & Hin). congruence.
    + cbn [snd]. unfold df_getitem, df_read, bind, ret.
      rewrite lookup_insert_eq. cbn [data].
      now rewrite (get_column_last _ _ _ Ht).
  - destruct (map_res_total (map_tax parse) s) as (labels & Hm & Hall).
    { intros a. destruct (map_tax_label a) as (l & ? & _). eauto. }
    exists labels.
    assert (Hrun : ensure_tax_level parse df col h =
      (Ok df, <[df := mkDataFrame (nrows d)
                        (data d ++ [("Tax_Level", labels)])]> h)).
    { rewrite ensure_tax_level_shape, (derive_frame_run _ _ _ _ _ _ Hd).
      unfold derive_frame. rewrite bool_decide_eq_false_2, Hs, Hm by exact Ht.
      reflexivity. }
    rewrite Hrun. split; [reflexivity|]. split; [exact Hall|]. split.
    + apply (Forall2_results _ _ _ _ Hall). intros x l Hx.
      destruct (map_tax_label x) as (l' & Hl & Hin). congruence.
    + cbn [snd]. unfold df_getitem, df_read, bind, ret.
      rewrite lookup_insert_eq. cbn [data].
      now rewrite (get_column_last _ _ _ Ht).
Qed.

End DerivationFacts.

(** ** The income derivation at its edges *)

Section IncomeEdgeFacts.

(** With a maximum that is not above 99000, or with none, the edges are
    refused: they decrease, end in NaN, or repeat 99000. *)
Lemma income_edges_refused (top : float) :
  fltb (of_int 99000) top = false ->
  is_monotonic_increasing (income_edges top) = false \/
  (is_monotonic_increasing (income_edges top) = true /\
   has_duplicates (income_edges top) = true).
Proof.
  intros Htop. destruct (fleb (of_int 99000) top) eqn:E.
  - right. assert (Heq : feqb (of_int 99000) top = true) by float_order.
    pose proof (fleb_number_r _ _ E) as Hn.
    unfold income_edges, is_monotonic_increasing, has_duplicates, existsb,
      same_value.
    rewrite E, Heq, Hn. split; [reflexivity|]. now rewrite !orb_true_r.
  - left. unfold income_edges, is_monotonic_increasing. rewrite E.
    reflexivity.
Qed.

Lemma income_cells_refused (s : list pyobj) (x : list float) :
  map_res to_float64 s = Ok x ->
  fltb (of_int 99000) (nanmax x) = false ->
  income_cells s = Raise ValueError.
Proof.
  intros Hs Htop. unfold income_cells, series_max, cut. rewrite Hs.
  cbn [res_bind].
  destruct (income_edges_refused _ Htop) as [->|[-> ->]]; reflexivity.
Qed.

(** The maximum of a column is one of its numbers. *)
Lemma nanmax_in (xs : list float) :
  is_nan (nanmax xs) = false -> nanmax xs ∈ xs.
Proof.
  unfold nanmax.
  assert (H : forall acc,
    let r := fold_left
      (fun acc x =>
         if is_nan x then acc
         else if is_nan acc then x
         else if fltb acc x then x else acc) xs acc in
    r = acc \/ r ∈ xs).
  { induction xs as [|x xs IH]; intros acc; cbn [fold_left]; [now left|].
    destruct (IH (if is_nan x then acc
                  else if is_nan acc then x
                  else if fltb acc x then x else acc)) as [H|H].
    - rewrite H. destruct (is_nan x); [now left|].
      destruct (is_nan acc); [right; apply elem_of_cons; now left|].
      destruct (fltb acc x); [right; apply elem_of_cons; now left | now left].
    - right. apply elem_of_cons. now right. }
  intros Hn. destruct (H nan) as [Heq|Hin]; [|exact Hin].
  rewrite Heq in Hn. discriminate.
Qed.

Lemma income_category_top (top : float) :
  fltb (of_int 99000) top = true ->
  income_category top top = PyStr "Very High".
Proof.
  intros Htop. rewrite income_category_number by eauto using fltb_number_r.
  replace (feqb top (of_int 0)) with false by (symmetry; float_order).
  replace (fltb (of_int 0) top) with true by (symmetry; float_order).
  replace (fltb (of_int 38000) top) with true by (symmetry; float_order).
  replace (fltb (of_int 69000) top) with true by (symmetry; float_order).
  rewrite Htop.
  replace (fltb top top) with false by (symmetry; float_order).
  reflexivity.
Qed.

(** X8. On a frame with distinct labels and without Income_Category, whose
    income column is numeric (dtype float64 or int64), the income derivation
    succeeds exactly when the maximum of the column is above 99000, and then
    adds the category of every cell; otherwise (a maximum of 99000 or less,
    or no maximum: an empty column or one of NaN only) it raises
    [ValueError] and leaves the store as it is. *)
Theorem ensure_income_category_outcome (df : ref) (col : string) (h : store)
    d s :
  h !! df = Some d -> NoDup (columns d) ->
  "Income_Category" ∉ columns d ->
  get_column col (data d) = Some s -> numeric_column s ->
  exists x,
    map_res to_float64 s = Ok x /\
    (fltb (of_int 99000) (nanmax x) = true ->
       ensure_income_category df col h =
         (Ok df,
          <[df := mkDataFrame (nrows d)
                    (data d ++
                     [("Income_Category",
                       map (income_category (nanmax x)) x)])]> h)) /\
    (fltb (of_int 99000) (nanmax x) = false ->
       ensure_income_category df col h = (Raise ValueError, h)).
Proof.
  intros Hd _ Ht Hs Hnum.
  destruct (numeric_column_values s Hnum) as [x Hx]. exists x.
  split; [exact Hx|].
  assert (Hrun : ensure_income_category df col h =
    match income_cells s with
    | Ok vs =>
        (Ok df,
         <[df := mkDataFrame (nrows d)
                   (data d ++ [("Income_Category", vs)])]> h)
    | Raise e => (Raise e, h)
    end).
  { rewrite ensure_income_category_shape, (derive_frame_run _ _ _ _ _ _ Hd).
    unfold derive_frame. rewrite bool_decide_eq_false_2, Hs by exact Ht.
    now destruct (income_cells s). }
  rewrite Hrun. split; intros Htop.
  - now rewrite (income_cells_accepted s x Hx Htop).
  - now rewrite (income_cells_refused s x Hx Htop).
Qed.

(** X9. When the income derivation succeeds on a column with a maximum, the
    top bin is not empty: the cell that holds the maximum is "Very High". *)
Theorem income_top_bin_inhabited (s : list pyobj) (x : list float)
    (cats : list pyobj) :
  map_res to_float64 s = Ok x -> is_nan (nanmax x) = false ->
  income_cells s = Ok cats ->
  fltb (of_int 99000) (nanmax x) = true /\
  exists i, x !! i = Some (nanmax x) /\ cats !! i = Some (PyStr "Very High").
Proof.
  intros Hx Hn Hc.
  assert (Htop : fltb (of_int 99000) (nanmax x) = true).
  { destruct (fltb (of_int 99000) (nanmax x)) eqn:E; [reflexivity|].
    rewrite (income_cells_refused s x Hx E) in Hc. discriminate. }
  split; [exact Htop|].
  rewrite (income_cells_accepted s x Hx Htop) in Hc. injection Hc as <-.
  destruct (proj1 (list_elem_of_lookup _ _) (nanmax_in x Hn)) as [i Hi].
  exists i. split; [exact Hi|].
  rewrite list_lookup_fmap, Hi. cbn. now rewrite income_category_top.
Qed.

(** X10. With a maximum above 99000, an income gets no category (the missing
    value NaN) exactly when it is NaN, below 0, or above the maximum. *)
Theorem income_category_missing (top v : float) :
  fltb (of_int 99000) top = true ->
  (income_category top v = PyFloat nan <->
   is_nan v = true \/ fltb v (of_int 0) = true \/ fltb top v = true).
Proof.
  intros Htop. destruct (is_nan v) eqn:Hv.
  - split; [now left|]. intros _. destruct v; try discriminate Hv.
    reflexivity.
  - rewrite income_category_number by exact Hv. split.
    + intros H. right.
      destruct (feqb v (of_int 0)) eqn:E0; [discriminate|].
      destruct (fltb (of_int 0) v) eqn:E1.
      * cbn [negb] in H.
        destruct (fltb (of_int 38000) v); [|discriminate].
        destruct (fltb (of_int 69000) v); [|discriminate].
        destruct (fltb (of_int 99000) v); [|discriminate].
        destruct (fltb top v); [now right | discriminate].
      * left. float_order.
    + intros [H|[H|H]]; [discriminate| |].
      * replace (feqb v (of_int 0)) with false by (symmetry; float_order).
        replace (fltb (of_int 0) v) with false by (symmetry; float_order).
        reflexivity.
      * replace (feqb v (of_int 0)) with false by (symmetry; float_order).
        replace (fltb (of_int 0) v) with true by (symmetry; float_order).
        replace (fltb (of_int 38000) v) with true by (symmetry; float_order).
        replace (fltb (of_int 69000) v) with true by (symmetry; float_order).
        replace (fltb (of_int 99000) v) with true by (symmetry; float_order).
        rewrite H. reflexivity.
Qed.

End IncomeEdgeFacts.

(** ** The page set-up *)

Section PageFacts.

Variable parse : string -> option float.

Lemma bind_ok {A B} (c : M A) (k : A -> M B) (h h' : store) (a : A) :
  c h = (Ok a, h') -> bind c k h = k a h'.
Proof. intros H. unfold bind. now rewrite H. Qed.

Lemma bind_raise {A B} (c : M A) (k : A -> M B) (h h' : store) (e : exn) :
  c h = (Raise e, h') -> bind c k h = (Raise e, h').
Proof. intros H. unfold bind. now rewrite H. Qed.

Lemma fresh_unused (h : store) : h !! fresh (dom h) = None.
Proof. apply not_elem_of_dom, is_fresh. Qed.

Lemma df_copy_run (df : ref) (h : store) d :
  h !! df = Some d ->
  df_copy df h = (Ok (fresh (dom h)), <[fresh (dom h) := d]> h).
Proof.
  intros Hd. unfold df_copy, df_read, bind. now rewrite Hd.
Qed.

Lemma if_col_run (col : option string) (f : ref -> string -> M ref)
    target compute (r : ref) (h : store) d :
  (forall df c h0, f df c h0 = derive target compute df c h0) ->
  h !! r = Some d ->
  if_col col f r h =
    match derive_if col target compute d with
    | Ok d' => (Ok r, <[r := d']> h)
    | Raise e => (Raise e, h)
    end.
Proof.
  intros Hf Hd. unfold if_col, derive_if, ret.
  destruct col as [c|]; [|now rewrite insert_id].
  destruct (String.eqb c ""); [now rewrite insert_id|].
  rewrite Hf. now apply derive_frame_run.
Qed.

(** The set-up runs the three conditional derivations on a fresh copy. *)
Lemma detect_and_derive_run (df : ref) (h : store) d :
  h !! df = Some d ->
  detect_and_derive parse df h =
    match derive_if (reviews_col (detect d)) "Review_Level"
            (map_res (categorize_review parse)) d with
    | Raise e => (Raise e, <[fresh (dom h) := d]> h)
    | Ok d1 =>
        match derive_if (income_col (detect d)) "Income_Category"
                income_cells d1 with
        | Raise e => (Raise e, <[fresh (dom h) := d1]> h)
        | Ok d2 =>
            match derive_if (tax_col (detect d)) "Tax_Level"
                    (map_res (map_tax parse)) d2 with
            | Raise e => (Raise e, <[fresh (dom h) := d2]> h)
            | Ok d3 =>
                (Ok match return_col (detect d) with
                    | None => Stopped
                    | Some _ => Running (fresh (dom h)) (detect d)
                    end,
                 <[fresh (dom h) := d3]> h)
            end
        end
    end.
Proof.
  intros Hd. unfold detect_and_derive.
  rewrite (bind_ok _ _ _ _ _ (df_copy_run df h d Hd)).
  set (new := fresh (dom h)). set (h0 := <[new := d]> h).
  assert (H0 : h0 !! new = Some d) by apply lookup_insert_eq.
  do 8 rewrite (bind_ok _ _ _ _ _ (first_col_run new _ h0 d H0)).
  change (reviews_col (detect d)) with
    (first_present (columns d)
       ["Reviews"; "reviews"; "Customer_Reviews"; "Rating"]).
  change (income_col (detect d)) with
    (first_present (columns d)
       ["Income"; "income"; "Annual_Income"; "Annual Income"]).
  change (tax_col (detect d)) with
    (first_present (columns d) ["Tax"; "tax"; "Tax_Amount"; "TaxAmount"]).
  change (return_col (detect d)) with
    (first_present (columns d)
       ["Return"; "return"; "is_return"; "Is_Return"]).
  unfold bind at 1.
  rewrite (if_col_run _ _ _ _ new h0 d (ensure_review_level_shape parse) H0).
  destruct (derive_if _ "Review_Level" _ d) as [d1|e]; [|reflexivity].
  unfold h0 at 1. rewrite insert_insert_eq.
  set (h1 := <[new := d1]> h).
  assert (H1 : h1 !! new = Some d1) by apply lookup_insert_eq.
  unfold bind at 1.
  rewrite (if_col_run _ _ _ _ new h1 d1 ensure_income_category_shape H1).
  destruct (derive_if _ "Income_Category" _ d1) as [d2|e]; [|reflexivity].
  unfold h1 at 1. rewrite insert_insert_eq.
  set (h2 := <[new := d2]> h).
  assert (H2 : h2 !! new = Some d2) by apply lookup_insert_eq.
  unfold bind at 1.
  rewrite (if_col_run _ _ _ _ new h2 d2 (ensure_tax_level_shape parse) H2).
  destruct (derive_if _ "Tax_Level" _ d2) as [d3|e]; [|reflexivity].
  unfold h2 at 1. rewrite insert_insert_eq.
  unfold detect, ret. cbv zeta.
  destruct (first_present (columns d) ["Return"; _; _; _]); reflexivity.
Qed.

Lemma grown_refl target d : grown target d d.
Proof. split; [reflexivity | now left]. Qed.

Lemma grown_column target d d1 (c : string) s :
  grown target d d1 -> get_column c (data d) = Some s ->
  get_column c (data d1) = Some s.
Proof.
  intros [_ [->|(vs & _ & ->)]] Hs; [exact Hs | now apply get_column_app].
Qed.

Lemma grown_label target d d1 (c : string) :
  grown target d d1 -> c ∈ columns d -> c ∈ columns d1.
Proof.
  intros [_ [->|(vs & _ & Hd1)]] Hc; [exact Hc|].
  unfold columns in *. rewrite Hd1, map_app. apply elem_of_app. now left.
Qed.

Lemma grown_other target d d1 (c : string) :
  grown target d d1 -> c <> target -> c ∈ columns d1 -> c ∈ columns d.
Proof.
  intros [_ [->|(vs & _ & Hd1)]] Hne Hc; [exact Hc|].
  unfold columns in *. rewrite Hd1, map_app in Hc.
  apply elem_of_app in Hc as [Hc|Hc]; [exact Hc|].
  cbn in Hc. apply list_elem_of_singleton in Hc. contradiction.
Qed.

Lemma derive_frame_grown target compute src d d1 :
  derive_frame target compute src d = Ok d1 ->
  grown target d d1 /\ target ∈ columns d1.
Proof.
  unfold derive_frame.
  destruct (bool_decide (target ∈ columns d)) eqn:Hin.
  - intros [= <-]. apply bool_decide_eq_true_1 in Hin.
    split; [apply grown_refl | exact Hin].
  - apply bool_decide_eq_false_1 in Hin.
    destruct (get_column src (data d)); [|discriminate].
    destruct (compute l) as [vs|]; [|discriminate]. cbn [res_bind].
    intros [= <-]. split.
    + split; [reflexivity|]. right. now exists vs.
    + unfold columns. cbn [data]. rewrite map_app. apply elem_of_app.
      right. cbn. apply elem_of_cons. now left.
Qed.

Lemma derive_if_grown col target compute d d1 :
  derive_if col target compute d = Ok d1 ->
  grown target d d1 /\
  forall c, col = Some c -> c <> "" -> target ∈ columns d1.
Proof.
  unfold derive_if. destruct col as [c|].
  - destruct (String.eqb_spec c "") as [->|Hne].
    + intros [= <-]. split; [apply grown_refl|]. now intros c' [= <-].
    + intros H. apply derive_frame_grown in H as [H1 H2]. auto.
  - intros [= <-]. split; [apply grown_refl | discriminate].
Qed.

(** A derivation whose function never raises succeeds on a column that is
    there. *)
Lemma derive_if_total col target (f : pyobj -> res pyobj) d :
  (forall c, col = Some c -> c ∈ columns d) ->
  (forall a, exists b, f a = Ok b) ->
  exists d1, derive_if col target (map_res f) d = Ok d1.
Proof.
  intros Hcol Hf. unfold derive_if. destruct col as [c|]; [|eauto].
  destruct (String.eqb c ""); [eauto|]. unfold derive_frame.
  destruct (bool_decide (target ∈ columns d)); [eauto|].
  destruct (get_column_present c (data d) (Hcol c eq_refl)) as [s ->].
  destruct (map_res_total f s Hf) as (l & -> & _). cbn [res_bind]. eauto.
Qed.

(** The income derivation raises exactly what the cells of its column make
    [income_cells] raise. *)
Lemma derive_if_income_raise col d (e : exn) :
  (forall c, col = Some c -> c <> "") ->
  derive_if col "Income_Category" income_cells d = Raise e <->
  exists c s,
    col = Some c /\
    (("Income_Category" ∉ columns d) /\
     ((get_column c (data d) = Some s /\ income_cells s = Raise e) \/
      (get_column c (data d) = None /\ e = KeyError c))).
Proof.
  intros Hne. unfold derive_if. destruct col as [c|].
  - destruct (String.eqb_spec c "") as [->|_];
      [now destruct (Hne "" eq_refl)|].
    unfold derive_frame.
    destruct (bool_decide ("Income_Category" ∈ columns d)) eqn:Hin.
    + apply bool_decide_eq_true_1 in Hin. split; [discriminate|].
      intros (c' & s & _ & Hout & _). contradiction.
    + apply bool_decide_eq_false_1 in Hin.
      destruct (get_column c (data d)) as [s|] eqn:Hs.
      * destruct (income_cells s) as [vs|e'] eqn:Hc; cbn [res_bind].
        -- split; [discriminate|].
           intros (c' & s' & Hc' & _ & Hcase). injection Hc' as <-.
           destruct Hcase as [[H1 H2]|[H1 H2]]; congruence.
        -- split.
           ++ intros [= <-]. exists c, s. eauto.
           ++ intros (c' & s' & Hc' & _ & Hcase). injection Hc' as <-.
              destruct Hcase as [[H1 H2]|[H1 H2]]; congruence.
      * split.
        -- intros [= <-]. exists c, []. eauto.
        -- intros (c' & s' & Hc' & _ & Hcase). injection Hc' as <-.
           destruct Hcase as [[H1 H2]|[H1 H2]]; congruence.
  - split; [discriminate | now intros (c & s & Hc & _)].
Qed.

Lemma detected_present d :
  (forall c, reviews_col (detect d) = Some c -> c ∈ columns d /\ c <> "") /\
  (forall c, income_col (detect d) = Some c -> c ∈ columns d /\ c <> "") /\
  (forall c, tax_col (detect d) = Some c -> c ∈ columns d /\ c <> "") /\
  (forall c, return_col (detect d) = Some c -> c ∈ columns d /\ c <> "").
Proof.
  unfold detect. cbn [reviews_col income_col tax_col return_col].
  split; [|split; [|split]]; intros c Hc;
    apply first_present_in in Hc as [Hin Hcand];
    (split; [exact Hin | intros ->]);
    repeat (apply elem_of_cons in Hcand as [Hcand|Hcand]; [discriminate|]);
    now apply elem_of_nil in Hcand.
Qed.

(** X11. The set-up of the page works on a copy: whatever it does, every
    dataframe that was in the store before, the loaded one included, is
    afterwards as it was. *)
Theorem detect_and_derive_keeps_objects (df : ref) (h : store) d :
  h !! df = Some d ->
  forall r x, h !! r = Some x ->
    snd (detect_and_derive parse df h) !! r = Some x.
Proof.
  intros Hd r x Hr. rewrite (detect_and_derive_run df h d Hd).
  assert (Hne : fresh (dom h) <> r).
  { intros <-. rewrite fresh_unused in Hr. discriminate. }
  repeat case_match; cbn [snd]; now rewrite lookup_insert_ne.
Qed.

(** The set-up raises only through the income derivation. *)
Lemma setup_raise_iff (df : ref) (h : store) d (e : exn) :
  h !! df = Some d ->
  (fst (detect_and_derive parse df h) = Raise e <->
   exists c s,
     income_col (detect d) = Some c /\
     ("Income_Category" ∉ columns d) /\
     get_column c (data d) = Some s /\ income_cells s = Raise e).
Proof.
  intros Hd. rewrite (detect_and_derive_run df h d Hd).
  destruct (detected_present d) as (Hrev & Hinc & Htax & _).
  destruct (derive_if_total (reviews_col (detect d)) "Review_Level"
              (categorize_review parse) d) as [d1 H1].
  { intros c Hc. now apply Hrev. }
  { intros a. destruct (categorize_review_label parse a) as (l & ? & _).
    eauto. }
  rewrite H1. apply derive_if_grown in H1 as [G1 _].
  assert (Hiff : "Income_Category" ∉ columns d1 <->
                 "Income_Category" ∉ columns d).
  { split; intros H Hin; apply H.
    - eapply grown_label; eauto.
    - eapply grown_other; eauto; discriminate. }
  destruct (derive_if (income_col (detect d)) "Income_Category" income_cells d1)
    as [d2|e'] eqn:H2.
  - assert (Hno : ~ exists c s,
        income_col (detect d) = Some c /\
        ("Income_Category" ∉ columns d) /\
        get_column c (data d) = Some s /\ income_cells s = Raise e).
    { intros (c & s & Hc & Hout & Hs & He).
      assert (Hr : derive_if (income_col (detect d)) "Income_Category"
                     income_cells d1 = Raise e).
      { apply derive_if_income_raise; [intros c' Hc'; now apply Hinc|].
        exists c, s. split; [exact Hc|]. split; [now apply Hiff|]. left.
        split; [eapply grown_column; eauto | exact He]. }
      congruence. }
    apply derive_if_grown in H2 as [G2 _].
    destruct (derive_if_total (tax_col (detect d)) "Tax_Level"
                (map_tax parse) d2) as [d3 H3].
    { intros c Hc. eapply grown_label; [exact G2|].
      eapply grown_label; [exact G1|]. now apply Htax. }
    { intros a. destruct (map_tax_label parse a) as (l & ? & _). eauto. }
    rewrite H3. cbn [fst]. split; [discriminate | intros H; now destruct Hno].
  - cbn [fst]. apply derive_if_income_raise in H2;
      [|intros c' Hc'; now apply Hinc].
    destruct H2 as (c & s & Hc & Hout & Hcase).
    destruct (get_column_present c (data d) (proj1 (Hinc c Hc))) as [s0 Hs0].
    pose proof (grown_column _ _ _ _ _ G1 Hs0) as Hs1.
    destruct Hcase as [[Hs He]|[Hs _]]; [|congruence].
    assert (s = s0) by congruence. subst s0. split.
    + intros [= <-]. exists c, s. split; [exact Hc|].
      split; [now apply Hiff|]. now split.
    + intros (c' & s' & Hc' & _ & Hs' & He'). congruence.
Qed.

(** X12. On a loaded frame with distinct labels whose detected income
    column, if there is one, is numeric (dtype float64 or int64), the set-up
    raises only through the income derivation, and only [ValueError]: it
    raises exactly when an income column is detected, the data has no
    Income_Category, and the maximum of the income column is not above 99000
    (99000 or less, or none: an empty column or one of NaN only). *)
Theorem detect_and_derive_raises (df : ref) (h : store) d :
  h !! df = Some d -> NoDup (columns d) ->
  (forall c s, income_col (detect d) = Some c ->
     get_column c (data d) = Some s -> numeric_column s) ->
  forall e,
    fst (detect_and_derive parse df h) = Raise e <->
    e = ValueError /\
    ("Income_Category" ∉ columns d) /\
    exists c s x,
      income_col (detect d) = Some c /\
      get_column c (data d) = Some s /\
      map_res to_float64 s = Ok x /\
      fltb (of_int 99000) (nanmax x) = false.
Proof.
  intros Hd _ Hnum e. rewrite (setup_raise_iff df h d e Hd). split.
  - intros (c & s & Hc & Hout & Hs & He).
    destruct (numeric_column_values s (Hnum c s Hc Hs)) as [x Hx].
    destruct (fltb (of_int 99000) (nanmax x)) eqn:Htop.
    + rewrite (income_cells_accepted s x Hx Htop) in He. discriminate.
    + rewrite (income_cells_refused s x Hx Htop) in He.
      injection He as <-. split; [reflexivity|]. split; [exact Hout|].
      now exists c, s, x.
  - intros (-> & Hout & c & s & x & Hc & Hs & Hx & Htop).
    exists c, s. eauto using income_cells_refused.
Qed.


(** X14. On a loaded frame, whose labels are normalised, the set-up never
    detects one of its candidates that has a space in it: "Payment Method",
    "Store Type", "Annual Income", "Product Category" and
    "Product Subcategory" are never the detected columns. *)
Theorem detect_and_derive_never_spaced (df : ref) (h h' : store) d
    (raw : list string) (data0 : ref) (cols : Detected) :
  h !! df = Some d -> columns d = map normalize_label raw ->
  detect_and_derive parse df h = (Ok (Running data0 cols), h') ->
  payment_col cols <> Some "Payment Method" /\
  store_col cols <> Some "Store Type" /\
  income_col cols <> Some "Annual Income" /\
  product_cat_col cols <> Some "Product Category" /\
  product_subcat_col cols <> Some "Product Subcategory".
Proof.
  intros Hd Hraw. rewrite (detect_and_derive_run df h d Hd).
  destruct (derive_if _ "Review_Level" _ d) as [d1|]; [|discriminate].
  destruct (derive_if _ "Income_Category" _ d1) as [d2|]; [|discriminate].
  destruct (derive_if _ "Tax_Level" _ d2) as [d3|]; [|discriminate].
  destruct (return_col (detect d)); [|discriminate]. intros [= _ <- _].
  assert (Hclean : forall cands c,
    first_present (columns d) cands = Some c ->
    PyString.has_char " " c = false).
  { intros cands c Hc. apply first_present_in in Hc as [Hc _].
    rewrite Hraw in Hc. now destruct (normalized_labels_clean _ _ Hc). }
  unfold detect. cbv zeta.
  cbn [payment_col store_col income_col product_cat_col product_subcat_col].
  repeat split; intros Hc; apply Hclean in Hc; discriminate Hc.
Qed.

End PageFacts.

(** ** The multivariate questions *)

Section MultivariateFacts.

Variable parse : string -> option float.
Variable py_str : pyobj -> string.

Lemma match_here_prefix (p q s : string) :
  PyString.match_here_nocase (p ++ q) s = true ->
  PyString.match_here_nocase p s = true.
Proof.
  revert s. induction p as [|a p IH]; intros s; [reflexivity|].
  cbn [String.append PyString.match_here_nocase].
  destruct s as [|b s]; [discriminate|].
  intros H. apply andb_prop in H as [-> H]. now rewrite (IH _ H).
Qed.

Lemma contains_prefix (p q s : string) :
  PyString.contains_nocase (p ++ q) s = true ->
  PyString.contains_nocase p s = true.
Proof.
  induction s as [|b s IH]; cbn [PyString.contains_nocase]; intros H;
    apply orb_prop in H as [H|H]; try discriminate H;
    try (now rewrite (match_here_prefix _ _ _ H)).
  rewrite (IH H). apply orb_true_r.
Qed.

(** X15. The mask for women's products is the test for "wom" alone: a text
    that contains "women" contains "wom", so the first test adds nothing. *)
Theorem women_mask_is_wom (x : pyobj) :
  women_mask py_str x = PyString.contains_nocase "wom" (astype_str py_str x).
Proof.
  unfold women_mask.
  destruct (PyString.contains_nocase "women" (astype_str py_str x)) eqn:E;
    [|reflexivity].
  symmetry. apply (contains_prefix "wom" "en"). exact E.
Qed.

Lemma select_map_filter {A} (f : A -> bool) (l : list A) :
  select (map f l) l = List.filter f l.
Proof.
  induction l as [|a l IH]; cbn [map select List.filter]; [reflexivity|].
  destruct (f a); now rewrite IH.
Qed.

Lemma select_length {A} (mask : list bool) (l : list A) :
  length l = length mask ->
  length (select mask l) = length (List.filter id mask).
Proof.
  revert l. induction mask as [|b mask IH]; intros [|a l];
    cbn [select List.filter length]; try discriminate; [reflexivity|].
  intros [= H]. unfold id at 1. destruct b; cbn [length]; now rewrite IH.
Qed.

Lemma get_column_map (g : list pyobj -> list pyobj) (c : string)
    (cs : list (string * list pyobj)) :
  get_column c (map (fun c => (fst c, g (snd c))) cs) =
    option_map g (get_column c cs).
Proof.
  induction cs as [|[c' vs] cs IH]; cbn [map get_column fst snd];
    [reflexivity|].
  now destruct (String.eqb c c').
Qed.

Lemma kept_cells (keep : pyobj -> bool) (s vs : list pyobj) :
  length vs = length s ->
  Forall2 (fun i v => vs !! i = Some v) (kept_rows keep s)
    (select (map keep s) vs).
Proof.
  unfold kept_rows.
  assert (H : forall (s vs ps pv : list pyobj),
    length ps = length pv -> length vs = length s ->
    Forall2 (fun i v => (pv ++ vs) !! i = Some v)
      (List.filter
         (fun i =>
            match (ps ++ s) !! i with Some x => keep x | None => false end)
         (seq (length ps) (length s)))
      (select (map keep s) vs)).
  { clear s vs. induction s as [|a s IH]; intros vs ps pv Hp Hl;
      destruct vs as [|v vs]; try discriminate Hl;
      cbn [length seq List.filter map select]; [constructor|].
    injection Hl as Hl.
    rewrite (list_lookup_middle ps s a (length ps) eq_refl).
    assert (Hrest :
      Forall2 (fun i w => (pv ++ v :: vs) !! i = Some w)
        (List.filter
           (fun i =>
              match (ps ++ a :: s) !! i with
              | Some x => keep x
              | None => false
              end)
           (seq (S (length ps)) (length s)))
        (select (map keep s) vs)).
    { rewrite (cons_middle a ps s), (cons_middle v pv vs), !app_assoc.
      replace (S (length ps)) with (length (ps ++ [a]))
        by (rewrite length_app; cbn; lia).
      apply IH; [rewrite !length_app; cbn; lia | exact Hl]. }
    destruct (keep a); [|exact Hrest].
    constructor; [|exact Hrest].
    rewrite Hp. now apply list_lookup_middle. }
  intros Hl. exact (H s vs [] [] eq_refl Hl).
Qed.

Lemma kept_rows_length (keep : pyobj -> bool) (s : list pyobj) :
  length (kept_rows keep s) = length (List.filter id (map keep s)).
Proof.
  pose proof (kept_cells keep s s eq_refl) as H.
  apply Forall2_length in H. rewrite H.
  now apply select_length, eq_sym, length_map.
Qed.

(** X16. The rows for women's products: on a well-formed frame with distinct
    labels that has the subcategory column, the result is a new well-formed
    frame, the dataframes that were there are as they were, and the new frame
    holds the rows of the data whose subcategory text contains "wom" in any
    mix of cases: these rows and no others, in their order, with the labels of
    the data and with the cells that the rows have in every column. *)
Theorem women_rows_result (data0 : ref) (subcat : string) (h : store) d s :
  h !! data0 = Some d -> well_formed d -> NoDup (columns d) ->
  get_column subcat (data d) = Some s ->
  exists d',
    women_rows py_str data0 subcat h =
      (Ok (fresh (dom h)), <[fresh (dom h) := d']> h) /\
    h !! fresh (dom h) = None /\
    columns d' = columns d /\ well_formed d' /\
    rows_of d
      (kept_rows
         (fun x => PyString.contains_nocase "wom" (astype_str py_str x)) s)
      d'.
Proof.
  intros Hd Hwf _ Hs. eexists. split; [|split; [apply fresh_unused|]].
  - unfold women_rows, df_getitem, df_select, df_read, bind, ret.
    rewrite Hd, Hs. cbv beta iota. rewrite Hd. reflexivity.
  - assert (Hlen : length s = nrows d).
    { unfold well_formed in Hwf. rewrite Forall_forall in Hwf.
      exact (Hwf _ (get_column_Some _ _ _ Hs)). }
    assert (Hmask : map (women_mask py_str) s =
      map (fun x => PyString.contains_nocase "wom" (astype_str py_str x)) s).
    { apply map_ext. intros x. unfold women_mask.
      destruct (PyString.contains_nocase "women" _) eqn:E; [|reflexivity].
      symmetry. apply (contains_prefix "wom" "en"). exact E. }
    rewrite Hmask. split; [|split; [|split]].
    + unfold columns. cbn [data]. rewrite map_map. reflexivity.
    + unfold well_formed in *. cbn [nrows data]. apply Forall_map.
      eapply Forall_impl; [exact Hwf|]. intros [c vs] Hc. cbn [snd] in *.
      apply select_length. rewrite length_map. congruence.
    + cbn [nrows]. symmetry. apply kept_rows_length.
    + cbn [data]. apply Forall2_fmap_r.
      unfold well_formed in Hwf. clear Hs.
      induction Hwf as [|[c vs] cs Hc _ IH]; constructor; [|exact IH].
      cbn [fst snd] in *. split; [reflexivity|].
      apply kept_cells. congruence.
Qed.

Lemma missing_cols_run (data0 : ref) (required : list string) (h : store) d :
  h !! data0 = Some d ->
  missing_cols data0 required h =
    (Ok (List.filter (fun c => negb (bool_decide (c ∈ columns d))) required),
     h).
Proof.
  intros Hd. induction required as [|c rest IH];
    cbn [missing_cols List.filter]; [reflexivity|].
  unfold bind at 1. unfold df_columns, df_read, bind at 1, ret at 1.
  rewrite Hd. cbv beta iota. rewrite (bind_ok _ _ _ _ _ IH). unfold ret.
  now destruct (bool_decide (c ∈ columns d)).
Qed.

(** X17. On data with distinct labels the second multivariate question
    never raises.  It shows the warning exactly when one of product_category,
    Reviews, Return is not a column of the data; otherwise it works on a new
    copy that has the column Review_Level, the data itself staying as it
    was. *)
Theorem reviews_by_category_outcome (data0 : ref) (h : store) d :
  h !! data0 = Some d -> NoDup (columns d) ->
  exists out h',
    reviews_by_category parse data0 h = (Ok out, h') /\
    h' !! data0 = Some d /\
    (out = None <->
     ~ (("product_category" ∈ columns d) /\ ("Reviews" ∈ columns d) /\
        ("Return" ∈ columns d))) /\
    forall tmp, out = Some tmp ->
      h !! tmp = None /\
      exists d', h' !! tmp = Some d' /\ grown "Review_Level" d d' /\
                 "Review_Level" ∈ columns d'.
Proof.
  intros Hd _. unfold reviews_by_category.
  rewrite (bind_ok _ _ _ _ _ (missing_cols_run data0 _ h d Hd)).
  cbn [List.filter].
  destruct (bool_decide ("product_category" ∈ columns d)) eqn:H1;
    [apply bool_decide_eq_true_1 in H1 | apply bool_decide_eq_false_1 in H1];
  (destruct (bool_decide ("Reviews" ∈ columns d)) eqn:H2;
    [apply bool_decide_eq_true_1 in H2 | apply bool_decide_eq_false_1 in H2]);
  (destruct (bool_decide ("Return" ∈ columns d)) eqn:H3;
    [apply bool_decide_eq_true_1 in H3 | apply bool_decide_eq_false_1 in H3]);
  cbn [negb];
  try (exists None, h; split; [reflexivity|]; split; [exact Hd|];
       split; [split; [tauto | reflexivity] | discriminate]).
  rewrite (bind_ok _ _ _ _ _ (df_copy_run data0 h d Hd)).
  set (new := fresh (dom h)).
  assert (Hnew : <[new := d]> h !! new = Some d) by apply lookup_insert_eq.
  assert (Hne : new <> data0).
  { intros E. pose proof (fresh_unused h) as Hf.
    change (h !! new = None) in Hf. rewrite E in Hf. congruence. }
  destruct (derive_if_total (Some "Reviews") "Review_Level"
              (categorize_review parse) d) as [d1 Hd1].
  { now intros c [= <-]. }
  { intros a. destruct (categorize_review_label parse a) as (l & ? & _).
    eauto. }
  cbn [derive_if String.eqb Ascii.eqb Bool.eqb] in Hd1.
  unfold bind at 1.
  rewrite ensure_review_level_shape,
    (derive_frame_run _ _ _ _ _ _ Hnew), Hd1, insert_insert_eq.
  exists (Some new), (<[new := d1]> h).
  split; [reflexivity|]. split; [now rewrite lookup_insert_ne|].
  split; [split; [discriminate | tauto]|].
  intros tmp [= <-]. split; [apply fresh_unused|].
  exists d1. split; [apply lookup_insert_eq|].
  now apply derive_frame_grown in Hd1.
Qed.

(** X18. The tax level does not go down when the tax goes up: for two
    numeric cells that are not NaN, the one with the larger value has the
    same or a higher level, in the order Low, Medium, High. *)
Theorem map_tax_monotone (x y : pyobj) (v w : float) :
  py_float parse x = Ok v -> py_float parse y = Ok w ->
  fleb v w = true ->
  exists lx ly rx ry,
    map_tax parse x = Ok lx /\ map_tax parse y = Ok ly /\
    category_rank lx = Some rx /\ category_rank ly = Some ry /\
    (rx <= ry)%nat.
Proof.
  intros Hx Hy Hvw. unfold map_tax. rewrite Hx, Hy.
  destruct (fleb v (float_lit 9576 100)) eqn:V1;
    destruct (fleb w (float_lit 9576 100)) eqn:W1;
    try (destruct (fleb v (float_lit 34997 100)) eqn:V2);
    try (destruct (fleb w (float_lit 34997 100)) eqn:W2);
    try (do 4 eexists; repeat (split; [reflexivity|]); cbn; lia);
    exfalso; float_order.
Qed.

Lemma df_columns_run (r : ref) (h : store) d :
  h !! r = Some d -> df_columns r h = (Ok (columns d), h).
Proof. intros Hd. unfold df_columns, df_read, bind, ret. now rewrite Hd. Qed.

Lemma first_present_head (cols : list string) (c : string)
    (rest : list string) :
  c ∈ cols -> first_present cols (c :: rest) = Some c.
Proof. intros H. cbn [first_present]. now rewrite bool_decide_eq_true_2. Qed.

(** X19. Once the set-up has gone on, the third multivariate question never
    raises on the data: when it does not show its warning, the copy it works
    on already has Income_Category, from the set-up, and is left as the data
    is. *)
Theorem income_by_category_after_setup (df : ref) (h h' : store) d
    (data0 : ref) (cols : Detected) :
  h !! df = Some d ->
  detect_and_derive parse df h = (Ok (Running data0 cols), h') ->
  exists out h'',
    income_by_category data0 h' = (Ok out, h'') /\
    forall tmp, out = Some tmp ->
      h' !! tmp = None /\ h'' !! tmp = h' !! data0 /\
      exists d', h' !! data0 = Some d' /\ "Income_Category" ∈ columns d'.
Proof.
  intros Hd. rewrite (detect_and_derive_run parse df h d Hd).
  destruct (detected_present d) as (_ & Hinc & _ & _).
  destruct (derive_if _ "Review_Level" _ d) as [d1|] eqn:H1; [|discriminate].
  destruct (derive_if _ "Income_Category" _ d1) as [d2|] eqn:H2;
    [|discriminate].
  destruct (derive_if _ "Tax_Level" _ d2) as [d3|] eqn:H3; [|discriminate].
  destruct (return_col (detect d)); [|discriminate]. intros [= <- _ <-].
  apply derive_if_grown in H1 as [G1 _].
  apply derive_if_grown in H2 as [G2 P2].
  apply derive_if_grown in H3 as [G3 _].
  set (data0 := fresh (dom h)). set (h' := <[data0 := d3]> h).
  assert (L3 : h' !! data0 = Some d3) by apply lookup_insert_eq.
  unfold income_by_category.
  rewrite (bind_ok _ _ _ _ _ (missing_cols_run data0 _ h' d3 L3)).
  cbn [List.filter].
  destruct (bool_decide ("product_category" ∈ columns d3)) eqn:HP;
    destruct (bool_decide ("Income" ∈ columns d3)) eqn:HI;
    destruct (bool_decide ("Return" ∈ columns d3)) eqn:HR; cbn [negb];
    try (exists None, h'; split; [reflexivity | discriminate]).
  apply bool_decide_eq_true_1 in HI.
  assert (HId : "Income" ∈ columns d).
  { eapply grown_other; [exact G1 | discriminate|].
    eapply grown_other; [exact G2 | discriminate|].
    eapply grown_other; [exact G3 | discriminate | exact HI]. }
  assert (Hcat : "Income_Category" ∈ columns d3).
  { eapply grown_label; [exact G3|].
    apply (P2 "Income"); [|discriminate].
    unfold detect. cbv zeta. cbn [income_col].
    now apply first_present_head. }
  rewrite (bind_ok _ _ _ _ _ (df_copy_run data0 h' d3 L3)).
  set (tmp := fresh (dom h')). set (h2 := <[tmp := d3]> h').
  assert (Lt : h2 !! tmp = Some d3) by apply lookup_insert_eq.
  rewrite (bind_ok _ _ _ _ _ (df_columns_run tmp h2 d3 Lt)).
  rewrite bool_decide_eq_true_2 by exact Hcat.
  unfold bind, ret. exists (Some tmp), h2. split; [reflexivity|].
  intros t [= <-]. split; [apply fresh_unused|].
  split; [rewrite Lt; symmetry; exact L3|].
  exists d3. split; [exact L3 | exact Hcat].
Qed.

End MultivariateFacts.

(** ** The auto-calculated fields on the sliders' ranges *)

(** X20. With the quantity, unit price and tax in the ranges of their
    sliders (quantity 1 to 10, unit price and tax not negative, tax at most
    2000) the auto-calculation raises nothing, and [Price], [total_price] and
    [tax_ratio] are numbers, not NaN, that are not negative. *)
Theorem auto_calculations_in_range (Quantity : Z) (Unit_Price Tax : float) :
  1 <= Quantity <= 10 ->
  fleb (of_int 0) Unit_Price = true ->
  fleb (of_int 0) Tax = true -> fleb Tax (of_int 2000) = true ->
  exists r,
    auto_calculations Quantity Unit_Price Tax = Ok r /\
    fleb (of_int 0) (Price r) = true /\
    fleb (of_int 0) (total_price r) = true /\
    fleb (of_int 0) (tax_ratio r) = true.
Proof.
  intros HQ HU HT0 HT1.
  assert (Hq : exists q, int_to_float Quantity = Ok q).
  { assert (Quantity = 1 \/ Quantity = 2 \/ Quantity = 3 \/ Quantity = 4 \/
            Quantity = 5 \/ Quantity = 6 \/ Quantity = 7 \/ Quantity = 8 \/
            Quantity = 9 \/ Quantity = 10) as H by lia.
    repeat (destruct H as [->|H]; [eexists; reflexivity|]).
    subst. eexists; reflexivity. }
  destruct Hq as [q Hq].
  destruct (int_to_float_positive Quantity q ltac:(lia) Hq) as (m & e & ->).
  pose proof (fmul_nonneg m e Unit_Price HU) as HP.
  pose proof (fadd_nonneg _ _ HP HT0) as Htot.
  pose proof (fadd_one_nonzero _ (fmul_exponent _ _) HP) as Hnz.
  assert (Hden : fleb (of_int 0)
                   (fadd (fmul (S754_finite false m e) Unit_Price) (of_int 1))
                 = true) by (apply fadd_nonneg; [exact HP | reflexivity]).
  assert (Hfin : Tax <> S754_infinity false).
  { intros ->. discriminate HT1. }
  pose proof (fdiv_nonneg _ _ HT0 Hfin Hden Hnz) as Hratio.
  unfold auto_calculations, py_truediv. rewrite Hq. cbn [res_bind].
  rewrite Hnz. cbn [res_bind]. eexists. split; [reflexivity|].
  cbn [Price total_price tax_ratio]. auto.
Qed.

(** ** The statements on the example data *)

Lemma load_data_normalises_witness :
  1%positive = 1%positive /\
  exists d',
    snd (load_data sheet_reader "sheet.xlsx" ∅)
      = <[1%positive := d']> (<[1%positive := raw_frame]> ∅)
    /\ columns d' = map normalize_label (columns raw_frame)
    /\ map snd (data d') = map snd (data raw_frame)
    /\ nrows d' = nrows raw_frame
    /\ forall c, c ∈ columns d' ->
         PyString.has_char " " c = false /\
         PyString.starts_with_space c = false /\
         PyString.ends_with_space c = false.
Proof.
  assert (Hrun : load_data sheet_reader "sheet.xlsx" ∅ =
                    (Ok 1%positive,
                     snd (load_data sheet_reader "sheet.xlsx" ∅)))
    by (vm_compute; reflexivity).
  exact (proj1 (load_data_normalises sheet_reader "sheet.xlsx" ∅)
           1%positive (<[1%positive := raw_frame]> ∅) raw_frame 1%positive
           (snd (load_data sheet_reader "sheet.xlsx" ∅)) eq_refl eq_refl
           Hrun).
Defined.

Lemma project_load_data_normalises_witness :
  exists d',
    <[1%positive := normalize_columns raw_frame]>
      (<[1%positive := raw_frame]> (∅ : store)) !! 1%positive = Some d' /\
    forall c, c ∈ columns d' ->
      PyString.has_char " " c = false /\
      PyString.starts_with_space c = false /\
      PyString.ends_with_space c = false.
Proof.
  apply (project_load_data_normalises upload_reader upload_reader None
           (Some (ProjectInformation.mkUploadedFile "orders.csv" 1))
           ∅ _ 1%positive).
  - intros src h0 r h1 [= <- <-]. rewrite lookup_insert_eq. eauto.
  - intros src h0 r h1 [= <- <-]. rewrite lookup_insert_eq. eauto.
  - reflexivity.
Defined.

Lemma first_col_skips_spaced_witness :
  first_col 1%positive ["Payment Method"; "Payment_mode"]
    loaded_store
  = first_col 1%positive
      (List.filter (fun c => negb (PyString.has_char " " c))
         ["Payment Method"; "Payment_mode"])
      loaded_store /\
  forall c,
    first_col 1%positive ["Payment Method"; "Payment_mode"]
      loaded_store
    = (Ok (Some c), loaded_store) ->
    PyString.has_char " " c = false.
Proof.
  exact (first_col_skips_spaced 1%positive ["Payment Method"; "Payment_mode"]
           loaded_store loaded_frame (columns raw_frame)
           eq_refl eq_refl).
Defined.

Lemma ensure_missing_source_witness :
  ensure_review_level reject_text 1%positive "Rating" orders_store
    = (Raise (KeyError "Rating"), orders_store) /\
  ensure_income_category 1%positive "Rating" orders_store
    = (Raise (KeyError "Rating"), orders_store) /\
  ensure_tax_level reject_text 1%positive "Rating" orders_store
    = (Raise (KeyError "Rating"), orders_store).
Proof.
  assert (Hcol : "Rating" ∉ columns orders_frame)
    by (apply (bool_decide_unpack _); exact I).
  pose proof (ensure_missing_source reject_text 1%positive "Rating"
                orders_store orders_frame eq_refl Hcol) as (H1 & H2 & H3).
  split; [apply H1 | split; [apply H2 | apply H3]];
    apply (bool_decide_unpack _); exact I.
Defined.

Lemma ensure_level_adds_labels_witness :
  exists labels,
    ensure_review_level reject_text 1%positive "Reviews" orders_store =
      (Ok 1%positive,
       <[1%positive := mkDataFrame (nrows orders_frame)
                         (data orders_frame ++ [("Review_Level", labels)])]>
         orders_store) /\
    Forall2 (fun x l => categorize_review reject_text x = Ok l)
      [PyInt 2; PyInt 3; PyInt 5] labels /\
    Forall (fun l => l ∈ map PyStr ["Low"; "Medium"; "High"; "Unknown"])
      labels /\
    df_getitem 1%positive "Review_Level"
      (snd (ensure_review_level reject_text 1%positive "Reviews" orders_store))
    = (Ok labels,
       snd (ensure_review_level reject_text 1%positive "Reviews" orders_store)).
Proof.
  assert (Hnd : NoDup (columns orders_frame))
    by (apply (bool_decide_unpack _); exact I).
  apply (proj1 (ensure_level_adds_labels reject_text 1%positive "Reviews"
                  orders_store orders_frame [PyInt 2; PyInt 3; PyInt 5]
                  eq_refl Hnd eq_refl)).
  apply (bool_decide_unpack _). exact I.
Defined.

Lemma ensure_income_category_outcome_witness :
  exists x,
    map_res to_float64 [PyInt 50000; PyInt 98000] = Ok x /\
    (fltb (of_int 99000) (nanmax x) = true ->
       ensure_income_category 1%positive "Income" modest_store =
         (Ok 1%positive,
          <[1%positive :=
              mkDataFrame (nrows modest_frame)
                (data modest_frame ++
                 [("Income_Category",
                   map (income_category (nanmax x)) x)])]> modest_store)) /\
    (fltb (of_int 99000) (nanmax x) = false ->
       ensure_income_category 1%positive "Income" modest_store
         = (Raise ValueError, modest_store)).
Proof.
  assert (Hnd : NoDup (columns modest_frame))
    by (apply (bool_decide_unpack _); exact I).
  assert (Hout : "Income_Category" ∉ columns modest_frame)
    by (apply (bool_decide_unpack _); exact I).
  assert (Hnum : numeric_column [PyInt 50000; PyInt 98000]).
  { right. repeat (constructor; [cbn; lia|]). constructor. }
  exact (ensure_income_category_outcome 1%positive "Income" modest_store
           modest_frame [PyInt 50000; PyInt 98000] eq_refl Hnd Hout eq_refl
           Hnum).
Defined.

Lemma income_top_bin_inhabited_witness :
  fltb (of_int 99000) (nanmax [of_int 50000; of_int 120000; of_int 98000])
    = true /\
  exists i,
    [of_int 50000; of_int 120000; of_int 98000] !! i =
      Some (nanmax [of_int 50000; of_int 120000; of_int 98000]) /\
    [PyStr "Medium"; PyStr "Very High"; PyStr "High"] !! i
      = Some (PyStr "Very High").
Proof.
  apply (income_top_bin_inhabited
           [PyInt 50000; PyInt 120000; PyInt 98000]
           [of_int 50000; of_int 120000; of_int 98000]
           [PyStr "Medium"; PyStr "Very High"; PyStr "High"]);
    reflexivity.
Defined.

Lemma income_category_missing_witness :
  income_category (of_int 200000) (of_int (-5)) = PyFloat nan <->
  is_nan (of_int (-5)) = true \/ fltb (of_int (-5)) (of_int 0) = true \/
  fltb (of_int 200000) (of_int (-5)) = true.
Proof.
  apply (income_category_missing (of_int 200000) (of_int (-5))). reflexivity.
Defined.

Lemma detect_and_derive_keeps_objects_witness :
  snd (detect_and_derive reject_text 1%positive orders_store) !! 1%positive
  = Some orders_frame.
Proof.
  apply (detect_and_derive_keeps_objects reject_text 1%positive orders_store
           orders_frame eq_refl 1%positive orders_frame).
  reflexivity.
Defined.

Lemma detect_and_derive_raises_witness :
  fst (detect_and_derive reject_text 1%positive modest_store)
    = Raise ValueError <->
  ValueError = ValueError /\
  ("Income_Category" ∉ columns modest_frame) /\
  exists c s x,
    income_col (detect modest_frame) = Some c /\
    get_column c (data modest_frame) = Some s /\
    map_res to_float64 s = Ok x /\
    fltb (of_int 99000) (nanmax x) = false.
Proof.
  assert (Hnd : NoDup (columns modest_frame))
    by (apply (bool_decide_unpack _); exact I).
  apply (detect_and_derive_raises reject_text 1%positive modest_store
           modest_frame eq_refl Hnd).
  intros c s Hc Hs. vm_compute in Hc. injection Hc as <-.
  vm_compute in Hs. injection Hs as <-.
  right. repeat (constructor; [cbn; lia|]). constructor.
Defined.


Lemma detect_and_derive_never_spaced_witness :
  payment_col (detect loaded_frame)
    <> Some "Payment Method" /\
  store_col (detect loaded_frame) <> Some "Store Type" /\
  income_col (detect loaded_frame)
    <> Some "Annual Income" /\
  product_cat_col (detect loaded_frame)
    <> Some "Product Category" /\
  product_subcat_col (detect loaded_frame)
    <> Some "Product Subcategory".
Proof.
  apply (detect_and_derive_never_spaced reject_text 1%positive
           loaded_store
           (snd (detect_and_derive reject_text 1%positive
                   loaded_store))
           loaded_frame (columns raw_frame)
           2%positive (detect loaded_frame)
           eq_refl eq_refl).
  vm_compute. reflexivity.
Defined.

Lemma women_rows_result_witness :
  exists d',
    women_rows repr_text 1%positive "Product_Subcategory" orders_store =
      (Ok (fresh (dom orders_store)),
       <[fresh (dom orders_store) := d']> orders_store) /\
    orders_store !! fresh (dom orders_store) = None /\
    columns d' = columns orders_frame /\ well_formed d' /\
    rows_of orders_frame
      (kept_rows
         (fun x => PyString.contains_nocase "wom" (astype_str repr_text x))
         [PyStr "Women"; PyStr "Mens"; PyStr "WOMEN"])
      d'.
Proof.
  assert (Hnd : NoDup (columns orders_frame))
    by (apply (bool_decide_unpack _); exact I).
  assert (Hwf : well_formed orders_frame) by repeat constructor.
  exact (women_rows_result repr_text 1%positive "Product_Subcategory"
           orders_store orders_frame
           [PyStr "Women"; PyStr "Mens"; PyStr "WOMEN"] eq_refl Hwf Hnd
           eq_refl).
Defined.

Lemma reviews_by_category_outcome_witness :
  exists out h',
    reviews_by_category reject_text 1%positive orders_store = (Ok out, h') /\
    h' !! 1%positive = Some orders_frame /\
    (out = None <->
     ~ (("product_category" ∈ columns orders_frame) /\
        ("Reviews" ∈ columns orders_frame) /\
        ("Return" ∈ columns orders_frame))) /\
    forall tmp, out = Some tmp ->
      orders_store !! tmp = None /\
      exists d', h' !! tmp = Some d' /\
                 grown "Review_Level" orders_frame d' /\
                 "Review_Level" ∈ columns d'.
Proof.
  assert (Hnd : NoDup (columns orders_frame))
    by (apply (bool_decide_unpack _); exact I).
  exact (reviews_by_category_outcome reject_text 1%positive orders_store
           orders_frame eq_refl Hnd).
Defined.

Lemma map_tax_monotone_witness :
  exists lx ly rx ry,
    map_tax reject_text (PyInt 50) = Ok lx /\
    map_tax reject_text (PyInt 400) = Ok ly /\
    category_rank lx = Some rx /\ category_rank ly = Some ry /\
    (rx <= ry)%nat.
Proof.
  apply (map_tax_monotone reject_text (PyInt 50) (PyInt 400)
           (of_int 50) (of_int 400)); reflexivity.
Defined.

Lemma auto_calculations_in_range_witness :
  exists r,
    auto_calculations 3 (float_lit 77617 100) (float_lit 24124 100) = Ok r /\
    fleb (of_int 0) (Price r) = true /\
    fleb (of_int 0) (total_price r) = true /\
    fleb (of_int 0) (tax_ratio r) = true.
Proof.
  apply (auto_calculations_in_range 3 (float_lit 77617 100)
           (float_lit 24124 100)); [lia | reflexivity..].
Defined.

Lemma income_by_category_after_setup_witness :
  exists out h'',
    income_by_category 2%positive
      (snd (detect_and_derive reject_text 1%positive orders_store))
    = (Ok out, h'') /\
    forall tmp, out = Some tmp ->
      snd (detect_and_derive reject_text 1%positive orders_store) !! tmp
        = None /\
      h'' !! tmp =
        snd (detect_and_derive reject_text 1%positive orders_store)
          !! 2%positive /\
      exists d',
        snd (detect_and_derive reject_text 1%positive orders_store)
          !! 2%positive = Some d' /\
        "Income_Category" ∈ columns d'.
Proof.
  apply (income_by_category_after_setup reject_text 1%positive orders_store
           (snd (detect_and_derive reject_text 1%positive orders_store))
           orders_frame 2%positive (detect orders_frame) eq_refl).
  vm_compute. reflexivity.
Defined.
